(** * BuildStream sandbox: the abstract [Sandbox], the bubblewrap backend
    [SandboxBwrap] and the command batch engine.

    Shallow embedding of [buildstream/sandbox/sandbox.py] and
    [buildstream/sandbox/_sandboxbwrap.py].

    Part I holds the model: the Python helpers the code relies on, the
    sandbox object and its batch tree, the host interface of the backend and
    a simulated host used to run the model on concrete inputs.  Part II holds
    the properties. *)

From Stdlib Require Import ZArith QArith String Ascii List Lia Bool.
From stdpp Require Import base gmap strings list.

Open Scope string_scope.
Open Scope Z_scope.

(* ===================================================================== *)
(** * Part I: the model *)
(* ===================================================================== *)

(** ** Python built-ins used by the sandbox code *)

Module Py.

(** [s.startswith(c)] for a one character [c]. *)
Definition startswith (c : ascii) (s : string) : bool :=
  match s with
  | String a _ => bool_decide (a = c)
  | EmptyString => false
  end.

(** [s.endswith(c)] for a one character [c]. *)
Fixpoint endswith (c : ascii) (s : string) : bool :=
  match s with
  | EmptyString => false
  | String a EmptyString => bool_decide (a = c)
  | String _ rest => endswith c rest
  end.

(** [s.lstrip(c)]: drop every leading occurrence of [c]. *)
Fixpoint lstrip (c : ascii) (s : string) : string :=
  match s with
  | String a rest => if bool_decide (a = c) then lstrip c rest else s
  | EmptyString => EmptyString
  end.

(** [s.split(c)]: the segments between occurrences of [c]; never empty,
    [''.split(':')] is [['']]. *)
Fixpoint split (c : ascii) (s : string) : list string :=
  match s with
  | EmptyString => [EmptyString]
  | String a rest =>
      if bool_decide (a = c) then EmptyString :: split c rest
      else match split c rest with
           | seg :: segs => String a seg :: segs
           | [] => [String a EmptyString]
           end
  end.

(** [os.sep] on the POSIX hosts the sandbox runs on. *)
Definition sep : ascii := "/"%char.

(** [os.path.isabs]. *)
Definition isabs (s : string) : bool := startswith sep s.

(** One step of [posixpath.join]: an absolute component replaces what was
    joined so far, otherwise it is appended behind exactly one separator. *)
Definition join2 (path b : string) : string :=
  if startswith sep b then b
  else if bool_decide (path = "") || endswith sep path then path ++ b
  else path ++ "/" ++ b.

(** [os.path.join(a, *p)]. *)
Definition join (a : string) (p : list string) : string :=
  fold_left join2 p a.

(** Truth value of an optional string: [None] and [''] are false. *)
Definition truthy (o : option string) : bool :=
  match o with
  | Some s => negb (bool_decide (s = ""))
  | None => false
  end.

(** [a or b] on optional strings. *)
Definition or_else (a b : option string) : option string :=
  if truthy a then a else b.

(** [a or d] where [d] is a string. *)
Definition or_default (a : option string) (d : string) : string :=
  match a with
  | Some s => if bool_decide (s = "") then d else s
  | None => d
  end.

(** [' '.join(l)]. *)
Fixpoint join_words (l : list string) : string :=
  match l with
  | [] => ""
  | [w] => w
  | w :: rest => w ++ " " ++ join_words rest
  end.

(** Characters [shlex.quote] leaves alone: [[A-Za-z0-9_@%+=:,./-]]. *)
Definition shell_safe (a : ascii) : bool :=
  let n := nat_of_ascii a in
  ((48 <=? n) && (n <=? 57))%nat || ((65 <=? n) && (n <=? 90))%nat
  || ((97 <=? n) && (n <=? 122))%nat
  || bool_decide (a ∈ ["_"; "@"; "%"; "+"; "="; ":"; ","; "."; "/"; "-"]%char).

Fixpoint all_safe (s : string) : bool :=
  match s with
  | EmptyString => true
  | String a rest => shell_safe a && all_safe rest
  end.

Definition squote : string := String "039"%char EmptyString.
Definition dquote : string := String "034"%char EmptyString.

(** [s.replace("'", "'\"'\"'")]. *)
Fixpoint escape_squotes (s : string) : string :=
  match s with
  | EmptyString => EmptyString
  | String a rest =>
      if bool_decide (a = "039"%char)
      then squote ++ dquote ++ squote ++ dquote ++ squote ++ escape_squotes rest
      else String a (escape_squotes rest)
  end.

(** [shlex.quote]. *)
Definition shlex_quote (s : string) : string :=
  if bool_decide (s = "") then squote ++ squote
  else if all_safe s then s
  else squote ++ escape_squotes s ++ squote.

Definition digit (n : nat) : string :=
  String (ascii_of_nat (48 + n)) EmptyString.

Fixpoint decimal (fuel n : nat) : string :=
  match fuel with
  | O => ""
  | S fuel' =>
      if (n <? 10)%nat then digit n
      else decimal fuel' (n / 10) ++ digit (n mod 10)
  end.

(** [str(z)] for an integer. *)
Definition str_of_int (z : Z) : string :=
  let n := Z.to_nat (Z.abs z) in
  (if z <? 0 then "-" else "") ++ decimal (S n) n.

End Py.

(** [needle] occurs in [hay]. *)
Definition contains (hay needle : string) : Prop :=
  ∃ pre post : string, hay = pre ++ needle ++ post.

(** ** Exceptions and results *)

Inductive errno := EBUSY | ENOENT | ENOTEMPTY | ENOTDIR | EACCES | EPERM.

Global Instance errno_eq_dec : EqDecision errno.
Proof. solve_decision. Defined.

(** The exceptions the sandbox code raises or lets through.  [OSError ENOENT]
    is what Python reports as [FileNotFoundError]. *)
Inductive exn :=
| ImplError (msg : string)
| BstError (msg : string)
| AssertionError (msg : string)
| TypeError
| AttributeError
| ProgramNotFoundError (tool : string)
| OSError (e : errno)
| SandboxCommandError (msg : string) (collect : option string)
| UserError (tag : string).

Inductive outcome (A : Type) :=
| Return (a : A)
| Raise (e : exn).
Arguments Return {A} a.
Arguments Raise {A} e.

(** ** Sandbox flags *)

Module SandboxFlags.

Definition NONE : Z := 0.
Definition ROOT_READ_ONLY : Z := 1.
Definition NETWORK_ENABLED : Z := 2.
Definition INTERACTIVE : Z := 4.
Definition INHERIT_UID : Z := 8.

(** Truth value of [flags & bit]. *)
Definition test (flags bit : Z) : bool := negb (Z.land flags bit =? 0).

End SandboxFlags.

(** ** The sandbox object *)

(** Python dictionaries are objects: the caller's environment and the one
    kept by [set_environment] are the same dictionary.  They live in a store
    and are named by their address. *)
Definition loc := nat.

(** Deferred actions handed to [_callback] are named; what they do is given
    by the [Callbacks] table below. *)
Definition callback := nat.

Record mark := Mark { directory : string; artifact : bool }.

(** [command] is a list of strings, or one string standing for a one
    element list. *)
Inductive command_arg :=
| OneString (s : string)
| Argv (l : list string).

Definition as_list (command : command_arg) : list string :=
  match command with
  | OneString s => [s]
  | Argv l => l
  end.

(** [_SandboxBatchItem] and its three subclasses. *)
#[warnings="-register-all"]
Inductive _SandboxBatchItem :=
| _SandboxBatchCommand (label : option string) (command : list string)
                       (cwd : string) (env : loc)
| _SandboxBatchGroup (label : option string)
                     (children : list _SandboxBatchItem)
| _SandboxBatchCall (cb : callback).

(** [_SandboxBatch].  A group object is named by its position in the tree
    under [main_group]: groups are only ever appended to, so a position keeps
    denoting the same group for the whole life of the batch. *)
Record _SandboxBatch := Batch {
  main_group : _SandboxBatchItem;
  current_group : list nat;
  flags : Z;
  collect : option string
}.

Record sandbox := MkSandbox {
  __directories : list mark;
  __cwd : option string;
  __env : option loc;
  __allow_real_directory : bool;
  __bare_directory : bool;
  _root : string;
  __scratch : option string;
  _output_directory : option string;
  _never_cache_vdirs : bool;
  __batch : option _SandboxBatch
}.

(** What a run of the program can see and change: the sandbox object, the
    dictionary store and the host. *)
Record state (W : Type) := State {
  self : sandbox;
  dicts : list (gmap string string);
  host : W
}.
Arguments State {W} _ _ _.
Arguments self {W} _.
Arguments dicts {W} _.
Arguments host {W} _.

(** What the program does to its collaborators, in order. *)
Inductive event :=
| EvRun (command : list string) (flags : Z) (cwd : string)
        (env : gmap string string)
| EvCall (cb : callback)
| EvStatus (detail : string)
| EvActivityBegin (label : string)
| EvActivityEnd (label : string)
| EvPopen (argv : list string) (env : gmap string string)
          (inherit_stdin new_session : bool).

Record result (S A : Type) := Result {
  events : list event;
  out : outcome A;
  final : S
}.
Arguments Result {S A} _ _ _.
Arguments events {S A} _.
Arguments out {S A} _.
Arguments final {S A} _.

(** Computations over the state that may raise and that log events. *)
Definition M (W A : Type) : Type := state W → result (state W) A.

Definition ret {W A} (a : A) : M W A := λ s, Result [] (Return a) s.

Definition raise {W A} (e : exn) : M W A := λ s, Result [] (Raise e) s.

Definition bind {W A B} (m : M W A) (k : A → M W B) : M W B :=
  λ s,
    let r := m s in
    match out r with
    | Return a =>
        let r' := k a (final r) in
        Result (events r ++ events r') (out r') (final r')
    | Raise e => Result (events r) (Raise e) (final r)
    end.

Declare Scope sandbox_scope.
Delimit Scope sandbox_scope with sandbox.
Notation "x <- m ;; k" := (bind m (λ x, k))
  (at level 100, m at next level, right associativity) : sandbox_scope.
Notation "m ;;; k" := (bind m (λ _, k))
  (at level 100, right associativity) : sandbox_scope.
Open Scope sandbox_scope.

Definition emit {W} (e : event) : M W unit := λ s, Result [e] (Return tt) s.

Definition get {W} : M W (state W) := λ s, Result [] (Return s) s.

Definition modify {W} (f : state W → state W) : M W unit :=
  λ s, Result [] (Return tt) (f s).

(** [try: m finally: cleanup]; an exception of the cleanup replaces the one
    in flight. *)
Definition finally {W A} (m : M W A) (cleanup : M W unit) : M W A :=
  λ s,
    let r := m s in
    let c := cleanup (final r) in
    match out c with
    | Return _ => Result (events r ++ events c) (out r) (final c)
    | Raise e => Result (events r ++ events c) (Raise e) (final c)
    end.

(** [for x in l: f(x)]. *)
Definition for_each {W A} (f : A → M W unit) : list A → M W unit :=
  fix loop (l : list A) : M W unit :=
    match l with
    | [] => ret tt
    | x :: rest => f x ;;; loop rest
    end.

(** [assert cond, msg]. *)
Definition assert {W} (cond : bool) (msg : string) : M W unit :=
  if cond then ret tt else raise (AssertionError msg).

Definition with_self {W} (f : sandbox → sandbox) (s : state W) : state W :=
  State (f (self s)) (dicts s) (host s).

Definition with_host {W} (f : W → W) (s : state W) : state W :=
  State (self s) (dicts s) (f (host s)).

Definition set_batch (b : option _SandboxBatch) (sb : sandbox) : sandbox :=
  MkSandbox (__directories sb) (__cwd sb) (__env sb)
    (__allow_real_directory sb) (__bare_directory sb) (_root sb)
    (__scratch sb) (_output_directory sb) (_never_cache_vdirs sb) b.

Definition set_never_cache_vdirs (v : bool) (sb : sandbox) : sandbox :=
  MkSandbox (__directories sb) (__cwd sb) (__env sb)
    (__allow_real_directory sb) (__bare_directory sb) (_root sb)
    (__scratch sb) (_output_directory sb) v (__batch sb).

Definition set_env (e : option loc) (sb : sandbox) : sandbox :=
  MkSandbox (__directories sb) (__cwd sb) e
    (__allow_real_directory sb) (__bare_directory sb) (_root sb)
    (__scratch sb) (_output_directory sb) (_never_cache_vdirs sb)
    (__batch sb).

Definition set_cwd (d : option string) (sb : sandbox) : sandbox :=
  MkSandbox (__directories sb) d (__env sb)
    (__allow_real_directory sb) (__bare_directory sb) (_root sb)
    (__scratch sb) (_output_directory sb) (_never_cache_vdirs sb)
    (__batch sb).

Definition set_output (d : option string) (sb : sandbox) : sandbox :=
  MkSandbox (__directories sb) (__cwd sb) (__env sb)
    (__allow_real_directory sb) (__bare_directory sb) (_root sb)
    (__scratch sb) d (_never_cache_vdirs sb) (__batch sb).

Definition set_directories (l : list mark) (sb : sandbox) : sandbox :=
  MkSandbox l (__cwd sb) (__env sb)
    (__allow_real_directory sb) (__bare_directory sb) (_root sb)
    (__scratch sb) (_output_directory sb) (_never_cache_vdirs sb)
    (__batch sb).

Definition set_main_group (g : _SandboxBatchItem) (b : _SandboxBatch)
  : _SandboxBatch :=
  Batch g (current_group b) (flags b) (collect b).

Definition set_current_group (g : list nat) (b : _SandboxBatch)
  : _SandboxBatch :=
  Batch (main_group b) g (flags b) (collect b).

(** The dictionary at an address; an address never handed out holds the
    empty dictionary. *)
Definition deref {W} (s : state W) (l : loc) : gmap string string :=
  default ∅ (dicts s !! l).

(** A new dictionary object. *)
Definition alloc {W} (d : gmap string string) : M W loc :=
  λ s, Result [] (Return (length (dicts s)))
         (State (self s) (dicts s ++ [d]) (host s)).

(** *** Positions in the batch tree *)

Definition children_of (g : _SandboxBatchItem) : list _SandboxBatchItem :=
  match g with
  | _SandboxBatchGroup _ cs => cs
  | _ => []
  end.

(** The item at a position. *)
Fixpoint item_at (path : list nat) (g : _SandboxBatchItem)
  : option _SandboxBatchItem :=
  match path with
  | [] => Some g
  | i :: rest =>
      match children_of g !! i with
      | Some c => item_at rest c
      | None => None
      end
  end.

(** [group.append(new)] for the group at a position. *)
Fixpoint append_at (path : list nat) (new g : _SandboxBatchItem)
  : _SandboxBatchItem :=
  match g with
  | _SandboxBatchGroup l cs =>
      match path with
      | [] => _SandboxBatchGroup l (cs ++ [new])
      | i :: rest => _SandboxBatchGroup l (alter (append_at rest new) i cs)
      end
  | other => other
  end.

(** The position a group appended now under [path] will have. *)
Definition next_position (path : list nat) (g : _SandboxBatchItem)
  : list nat :=
  path ++ [length (children_of (default g (item_at path g)))].

(** ** What a backend, the caller and the host supply *)

(** The method [self._run] resolves to: the one primitive a backend has to
    implement. *)
Class Backend (W : Type) := {
  _run : list string → Z → string → loc → state W → outcome Z * state W
}.

(** The deferred actions of the caller. *)
Class Callbacks (W : Type) := {
  invoke : callback → state W → outcome unit * state W
}.

(** The host as the bubblewrap backend uses it.  [os_unlink] and [os_rmdir]
    report the [errno] of the [OSError] they raise, if any.
    [mount_source sb ro path] is
    [MountMap(sb, ro).get_mount_source(path)], and [mounted_enter] and
    [mounted_exit] are the two ends of [mount_map.mounted(sb)].  [popen] is
    the launcher started by [subprocess.Popen] and waited for: it is given
    the argument vector, the environment, whether standard input is
    inherited and whether a new session is started. *)
Class Host (W : Type) := {
  os_path_exists : string → W → bool;
  os_makedirs : string → W → W;
  os_unlink : string → W → option errno * W;
  os_rmdir : string → W → option errno * W;
  time_sleep : Q → W → W;
  get_host_tool : string → W → option string;
  mount_source : sandbox → Z → string → string;
  mounted_enter : W → W;
  mounted_exit : W → W;
  popen : list string → gmap string string → bool → bool → W → Z * W
}.

Definition lift {W A} (f : state W → outcome A * state W) : M W A :=
  λ s, Result [] (fst (f s)) (snd (f s)).

Definition lift_host {W A} (f : W → outcome A * W) : M W A :=
  λ s, Result [] (fst (f (host s)))
         (State (self s) (dicts s) (snd (f (host s)))).

(** ** The batch engine: [_SandboxBatch] and its items *)

Module SandboxBatch.
Section Engine.
Context {W : Type} `{!Backend W} `{!Callbacks W}.

(** [self.sandbox._run(...)], as the sandbox's collaborators see it. *)
Definition call_run (command : list string) (flags : Z) (cwd : string)
    (env : loc) : M W Z :=
  s <- get ;;
  emit (EvRun command flags cwd (deref s env)) ;;;
  lift (_run command flags cwd env).

(** Modelled from the spec: [context.timed_activity(label)] around [m].
    The activity scope of the logging front end is not part of these
    sources; it is a timed, named logging scope around the execution of the
    children of a group, and it lets the exceptions of its body through. *)
Definition timed_activity {A} (label : string) (m : M W A) : M W A :=
  emit (EvActivityBegin label) ;;;
  finally m (emit (EvActivityEnd label)).

(** The command line shown for a command without a label. *)
Definition cmdline (command : list string) : string :=
  Py.join_words (map Py.shlex_quote command).

Definition failure_message (label : string) (exitcode : Z) : string :=
  "Command '" ++ label ++ "' failed with exitcode " ++ Py.str_of_int exitcode.

(** [_SandboxBatch.execute_command]. *)
Definition execute_command (b : _SandboxBatch) (label : option string)
    (command : list string) (cwd : string) (env : loc) : M W unit :=
  (if Py.truthy label then emit (EvStatus (default "" label)) else ret tt) ;;;
  exitcode <- call_run command (flags b) cwd env ;;
  if negb (exitcode =? 0) then
    let label := Py.or_default label (cmdline command) in
    raise (SandboxCommandError (failure_message label exitcode) (collect b))
  else ret tt.

(** [_SandboxBatch.execute_call]. *)
Definition execute_call (cb : callback) : M W unit :=
  emit (EvCall cb) ;;; lift (invoke cb).

(** [item.execute(batch)]: each item class hands itself to the matching
    method of the batch; a group runs its children in order inside the
    activity scope of its label, if it has one. *)
Fixpoint execute_item (b : _SandboxBatch) (it : _SandboxBatchItem)
  : M W unit :=
  match it with
  | _SandboxBatchCommand label command cwd env =>
      execute_command b label command cwd env
  | _SandboxBatchGroup label children =>
      let execute_children := for_each (execute_item b) children in
      if Py.truthy label
      then timed_activity (default "" label) execute_children
      else execute_children
  | _SandboxBatchCall cb => execute_call cb
  end.

(** [_SandboxBatchGroup.execute_children]. *)
Definition execute_children (b : _SandboxBatch)
    (items : list _SandboxBatchItem) : M W unit :=
  for_each (execute_item b) items.

(** [_SandboxBatch.execute_group]. *)
Definition execute_group (b : _SandboxBatch) (label : option string)
    (children : list _SandboxBatchItem) : M W unit :=
  if Py.truthy label
  then timed_activity (default "" label) (execute_children b children)
  else execute_children b children.

(** [_SandboxBatch.execute]. *)
Definition execute (b : _SandboxBatch) : M W unit :=
  execute_item b (main_group b).

End Engine.
End SandboxBatch.

(** ** [Sandbox] *)

Module Sandbox.
Section Methods.
Context {W : Type} `{!Backend W} `{!Callbacks W}.

(** [Sandbox.get_directory]. *)
Definition get_directory : M W string :=
  s <- get ;;
  if __allow_real_directory (self s) then
    modify (with_self (set_never_cache_vdirs true)) ;;;
    ret (_root (self s))
  else raise (BstError "You can't use get_directory").

(** [Sandbox.set_environment]: the sandbox keeps the caller's dictionary
    itself, not a copy. *)
Definition set_environment (environment : loc) : M W unit :=
  modify (with_self (set_env (Some environment))).

(** [Sandbox.set_work_directory]. *)
Definition set_work_directory (directory : string) : M W unit :=
  modify (with_self (set_cwd (Some directory))).

(** [Sandbox.set_output_directory]. *)
Definition set_output_directory (directory : string) : M W unit :=
  modify (with_self (set_output (Some directory))).

(** [Sandbox.mark_directory]. *)
Definition mark_directory (directory : string) (artifact : bool)
  : M W unit :=
  modify (with_self (λ sb,
    set_directories (__directories sb ++ [Mark directory artifact]) sb)).

(** [Sandbox._get_marked_directories]. *)
Definition _get_marked_directories : M W (list mark) :=
  s <- get ;; ret (__directories (self s)).

(** [Sandbox._get_work_directory]: [cwd or self.__cwd or '/']. *)
Definition _get_work_directory (cwd : option string) : M W string :=
  s <- get ;;
  ret (Py.or_default (Py.or_else cwd (__cwd (self s))) "/").

(** [Sandbox._get_environment]: [dict(env)] of no dictionary at all is a
    [TypeError]. *)
Definition _get_environment (cwd : option string) (env : option loc)
  : M W loc :=
  cwd <- _get_work_directory cwd ;;
  s <- get ;;
  let env := match env with
             | None => __env (self s)
             | Some e => Some e
             end in
  match env with
  | None => raise TypeError
  | Some e => alloc (<["PWD" := cwd]> (deref s e))
  end.

(** [Sandbox._get_scratch_directory]. *)
Definition _get_scratch_directory : M W (option string) :=
  s <- get ;;
  assert (negb (__bare_directory (self s)))
    "Scratch is not going to work with bare directories" ;;;
  ret (__scratch (self s)).

(** [Sandbox._create_batch]. *)
Definition _create_batch (main_group : _SandboxBatchItem) (flags : Z)
    (collect : option string) : _SandboxBatch :=
  Batch main_group [] flags collect.

(** [current_group.append(item)] on the batch that is open. *)
Definition append_to_current (b : _SandboxBatch) (new : _SandboxBatchItem)
  : M W unit :=
  modify (with_self (set_batch (Some
    (set_main_group (append_at (current_group b) new (main_group b)) b)))).

(** [Sandbox.run]. *)
Definition run (command : command_arg) (flags : Z) (cwd : option string)
    (env : option loc) (label : option string) : M W (option Z) :=
  cwd <- _get_work_directory cwd ;;
  env <- _get_environment (Some cwd) env ;;
  let command := as_list command in
  s <- get ;;
  match __batch (self s) with
  | Some (Batch _ _ batch_flags _ as b) =>
      assert (flags =? batch_flags)
        "Inconsistent sandbox flags in single command batch" ;;;
      let batch_command := _SandboxBatchCommand label command cwd env in
      append_to_current b batch_command ;;;
      ret None
  | None =>
      exitcode <- SandboxBatch.call_run command flags cwd env ;;
      ret (Some exitcode)
  end.

(** [Sandbox._callback]. *)
Definition _callback (cb : callback) : M W unit :=
  s <- get ;;
  match __batch (self s) with
  | Some b => append_to_current b (_SandboxBatchCall cb)
  | None => SandboxBatch.execute_call cb
  end.

(** The batch object as the body of the outermost scope left it.  The local
    [batch] of the scope and [self.__batch] are one object for the whole
    body: only the outermost scope assigns the field. *)
Definition the_batch (batch : _SandboxBatch) : M W _SandboxBatch :=
  s <- get ;; ret (default batch (__batch (self s))).

(** [self.__batch.current_group = parent_group]. *)
Definition restore_group (parent_group : list nat) : M W unit :=
  s <- get ;;
  match __batch (self s) with
  | Some b =>
      modify (with_self (set_batch (Some (set_current_group parent_group b))))
  | None => raise AttributeError
  end.

(** [Sandbox.batch], a context manager: [body] is what runs at its
    [yield], the body of the [with] statement. *)
Definition batch (flags : Z) (label collect : option string)
    (body : M W unit) : M W unit :=
  let group := _SandboxBatchGroup label [] in
  s <- get ;;
  match __batch (self s) with
  | Some (Batch main parent_group batch_flags batch_collect) =>
      assert (flags =? batch_flags)
        "Inconsistent sandbox flags in single command batch" ;;;
      modify (with_self (set_batch (Some
        (Batch (append_at parent_group group main)
               (next_position parent_group main)
               batch_flags batch_collect)))) ;;;
      finally body (restore_group parent_group)
  | None =>
      let batch := _create_batch group flags collect in
      modify (with_self (set_batch (Some batch))) ;;;
      batch <- finally (body ;;; the_batch batch)
                       (modify (with_self (set_batch None))) ;;
      SandboxBatch.execute batch
  end.

End Methods.

Section Probe.
Context {W : Type} `{!Host W}.

(** [Sandbox._has_command].  Without an environment, or without [PATH] in
    it, looking up a relative command is an [AttributeError]. *)
Definition _has_command (command : string) (env : option loc) : M W bool :=
  s <- get ;;
  if Py.isabs command then
    ret (os_path_exists
           (Py.join (_root (self s)) [Py.lstrip Py.sep command]) (host s))
  else
    match env with
    | None => raise AttributeError
    | Some e =>
        match deref s e !! "PATH" with
        | None => raise AttributeError
        | Some value =>
            ret (existsb
                   (λ path, os_path_exists
                      (Py.join (_root (self s))
                               [Py.lstrip Py.sep path; command]) (host s))
                   (Py.split ":" value))
        end
    end.

End Probe.

(** [Sandbox._run], the abstract method: what [self._run] resolves to for a
    class that does not define it. *)
Definition _run {W} (type_name : string)
  : list string → Z → string → loc → state W → outcome Z * state W :=
  λ _ _ _ _ s,
    (Raise (ImplError ("Sandbox of type '" ++ type_name
                       ++ "' does not implement _run()")), s).

End Sandbox.

(** The base class as a backend. *)
Definition Sandbox_backend (W : Type) : Backend W :=
  {| _run := Sandbox._run "Sandbox" |}.

(** ** [SandboxBwrap] *)

(** [SandboxBwrap] defines [run], [run_bwrap] and [try_remove_device] and
    nothing else: [self._run] is the inherited abstract method. *)
Definition SandboxBwrap_backend (W : Type) : Backend W :=
  {| _run := Sandbox._run "SandboxBwrap" |}.

Module SandboxBwrap.
Section Methods.
Context {W : Type} `{!Host W}.

(** Minimal set of devices for the sandbox. *)
Definition DEVICES : list string :=
  ["/dev/full"; "/dev/null"; "/dev/urandom"; "/dev/random"; "/dev/zero"].

Definition max_tries : nat := 1000.

(** The loop of [try_remove_device] with [remaining = max_tries - tries]
    retries left: [tries < max_tries] holds when [remaining] is a successor,
    and [tries += 1] takes its predecessor. *)
Fixpoint try_remove_from (remaining : nat) (device_path : string) (w : W)
  : outcome unit * W :=
  match os_unlink device_path w with
  | (None, w') => (Return tt, w')
  | (Some e, w') =>
      if bool_decide (e = EBUSY) then
        match remaining with
        | S remaining' =>
            try_remove_from remaining' device_path (time_sleep (1 # 100) w')
        | O => (Raise (OSError e), w')
        end
      else if bool_decide (e = ENOENT) then (Return tt, w')
      else (Raise (OSError e), w')
  end.

(** [SandboxBwrap.try_remove_device]. *)
Definition try_remove_device (device_path : string) (w : W)
  : outcome unit * W :=
  try_remove_from max_tries device_path w.

(** The vector [run] builds for the launcher. *)
Definition bwrap_command (tool root_mount_source : string) (flags : Z)
    (cwd : string) (mount_map : string → string)
    (marked_directories : list mark) (command : list string)
  : list string :=
  (let c0 := [tool] in
   let c1 := c0 ++ ["--unshare-pid"] in
   let c2 := c1 ++ ["--bind"; root_mount_source; "/"] in
   let c3 := if negb (SandboxFlags.test flags SandboxFlags.NETWORK_ENABLED)
             then c2 ++ ["--unshare-net"] else c2 in
   let c4 := c3 ++ ["--chdir"; cwd] in
   let c5 := c4 ++ ["--proc"; "/proc"; "--tmpfs"; "/tmp"] in
   let c6 := if SandboxFlags.test flags SandboxFlags.INTERACTIVE
             then c5 ++ ["--dev"; "/dev"]
             else fold_left
                    (λ acc device, acc ++ ["--dev-bind"; device; device])
                    DEVICES c5 in
   let c7 := fold_left
               (λ acc mark,
                  let mount_point := directory mark in
                  acc ++ ["--bind"; mount_map mount_point; mount_point])
               marked_directories c6 in
   let c8 := if SandboxFlags.test flags SandboxFlags.ROOT_READ_ONLY
             then c7 ++ ["--remount-ro"; "/"] else c7 in
   let c9 := c8 ++ ["--unshare-user"; "--uid"; "0"; "--gid"; "0"] in
   c9 ++ command)%list.

(** [SandboxBwrap.run_bwrap]: the launcher is started and waited for.  The
    signal handlers installed around it and the terminal hand-back after an
    interactive run act on processes and are not part of the model. *)
Definition run_bwrap (argv : list string) (env : loc) (interactive : bool)
  : M W Z :=
  s <- get ;;
  let new_session := negb interactive in
  emit (EvPopen argv (deref s env) interactive new_session) ;;;
  lift_host (λ w,
    let launched := popen argv (deref s env) interactive new_session w in
    (Return (fst launched), snd launched)).

(** The loop over [DEVICES] after a run that was not interactive. *)
Fixpoint remove_devices (root_mount_source : string) (devices : list string)
    (w : W) : outcome unit * W :=
  match devices with
  | [] => (Return tt, w)
  | device :: rest =>
      let device_path :=
        Py.join root_mount_source [Py.lstrip "/" device] in
      match try_remove_device device_path w with
      | (Return _, w') => remove_devices root_mount_source rest w'
      | (Raise e, w') => (Raise e, w')
      end
  end.

(** The loop over [['tmp', 'dev', 'proc']] that ends [run]. *)
Fixpoint remove_basedirs (existing_basedirs : string → bool)
    (root_mount_source : string) (basedirs : list string) (w : W)
  : outcome unit * W :=
  match basedirs with
  | [] => (Return tt, w)
  | basedir :: rest =>
      if negb (existing_basedirs basedir) then
        remove_basedirs existing_basedirs root_mount_source rest w
      else
        let base_directory := Py.join root_mount_source [basedir] in
        match os_rmdir base_directory w with
        | (None, w') =>
            remove_basedirs existing_basedirs root_mount_source rest w'
        | (Some e, w') =>
            if bool_decide (e = ENOENT)
            then remove_basedirs existing_basedirs root_mount_source rest w'
            else (Raise (OSError e), w')
        end
  end.

Definition basedirs : list string := ["tmp"; "dev"; "proc"].

(** What [run] does between the exit of the launcher and its own return. *)
Definition cleanup (interactive : bool) (existing_basedirs : string → bool)
    (root_mount_source : string) : M W unit :=
  (if negb interactive
   then lift_host (remove_devices root_mount_source DEVICES)
   else ret tt) ;;;
  lift_host (remove_basedirs existing_basedirs root_mount_source basedirs).

(** [SandboxBwrap.run]; it takes the place of [Sandbox.run] for this
    class. *)
Definition run (command : command_arg) (flags : Z) (cwd : option string)
    (env : option loc) : M W Z :=
  root_directory <- Sandbox.get_directory ;;
  scratch_directory <- Sandbox._get_scratch_directory ;;
  match scratch_directory with
  | None => raise TypeError
  | Some _ => ret tt
  end ;;;
  cwd <- match cwd with
         | None => Sandbox._get_work_directory None
         | Some c => ret c
         end ;;
  env <- match env with
         | None => Sandbox._get_environment None None
         | Some e => ret e
         end ;;
  let command := as_list command in
  s <- get ;;
  let mount_map :=
    mount_source (self s) (Z.land flags SandboxFlags.ROOT_READ_ONLY) in
  let root_mount_source := mount_map "/" in
  tool <- match get_host_tool "bwrap" (host s) with
          | Some path => ret path
          | None => raise (ProgramNotFoundError "bwrap")
          end ;;
  marked_directories <- Sandbox._get_marked_directories ;;
  let argv := bwrap_command tool root_mount_source flags cwd mount_map
                marked_directories command in
  let existing_basedirs := λ directory,
    os_path_exists (Py.join root_directory [directory]) (host s) in
  let interactive := SandboxFlags.test flags SandboxFlags.INTERACTIVE in
  modify (with_host mounted_enter) ;;;
  finally
    (modify (with_host
       (os_makedirs (Py.join root_mount_source [Py.lstrip Py.sep cwd]))) ;;;
     exit_code <- run_bwrap argv env interactive ;;
     cleanup interactive existing_basedirs root_mount_source ;;;
     ret exit_code)
    (modify (with_host mounted_exit)).

End Methods.
End SandboxBwrap.

(** ** Callers: scripts over the public interface *)

(** What a caller does with a sandbox: run commands, register deferred
    actions, open batch scopes around further statements, or fail. *)
#[warnings="-register-all"]
Inductive stmt :=
| SRun (command : command_arg) (flags : Z) (cwd : option string)
       (env : option loc) (label : option string)
| SCallback (cb : callback)
| SBatch (flags : Z) (label collect : option string) (body : list stmt)
| SRaise (e : exn).

Section Scripts.
Context {W : Type} `{!Backend W} `{!Callbacks W}.

Fixpoint exec (st : stmt) : M W unit :=
  match st with
  | SRun command flags cwd env label =>
      Sandbox.run command flags cwd env label ;;; ret tt
  | SCallback cb => Sandbox._callback cb
  | SBatch flags label collect body =>
      Sandbox.batch flags label collect (for_each exec body)
  | SRaise e => raise e
  end.

Definition exec_block (sts : list stmt) : M W unit := for_each exec sts.

End Scripts.

(** ** Reading batch trees and event logs *)

(** The commands and calls of a tree, depth first, in order. *)
Fixpoint flatten (it : _SandboxBatchItem) : list _SandboxBatchItem :=
  match it with
  | _SandboxBatchGroup _ children => flat_map flatten children
  | leaf => [leaf]
  end.

(** The events that are executions: commands run and actions called. *)
Definition is_execution (e : event) : bool :=
  match e with
  | EvRun _ _ _ _ | EvCall _ | EvPopen _ _ _ _ => true
  | _ => false
  end.

Definition executions (l : list event) : list event :=
  List.filter is_execution l.

(** The item a statement leaves in the tree of an open batch. *)
#[warnings="-register-all"]
Inductive mirrors : stmt → _SandboxBatchItem → Prop :=
| mirrors_run command flags cwd env label cwd' env' :
    mirrors (SRun command flags cwd env label)
            (_SandboxBatchCommand label (as_list command) cwd' env')
| mirrors_callback cb :
    mirrors (SCallback cb) (_SandboxBatchCall cb)
| mirrors_batch flags label collect body items :
    Forall2 mirrors body items →
    mirrors (SBatch flags label collect body) (_SandboxBatchGroup label items).

(** ** A simulated host *)

Module Sim.

(** The host keeps the paths that exist, how often the next [unlink] calls
    still fail with [EBUSY] ([None]: always), what the launcher leaves behind
    and the status it exits with, and counts [unlink] calls and sleeps. *)
Record world := World {
  paths : list string;
  busy : option nat;
  left_behind : list string;
  exit_status : Z;
  unlinks : nat;
  sleeps : nat
}.

(** Paths are kept without trailing separators. *)
Definition norm (p : string) : string :=
  String.rev (Py.lstrip Py.sep (String.rev p)).

Definition set_paths (l : list string) (w : world) : world :=
  World l (busy w) (left_behind w) (exit_status w) (unlinks w) (sleeps w).

Definition remove_path (p : string) (l : list string) : list string :=
  List.filter (λ q, negb (bool_decide (q = p))) l.

Definition has_entries (p : string) (l : list string) : bool :=
  existsb (λ q, String.prefix (p ++ "/") q) l.

Definition unlink (p : string) (w : world) : option errno * world :=
  let p := norm p in
  let count := S (unlinks w) in
  match busy w with
  | None =>
      (Some EBUSY, World (paths w) None (left_behind w) (exit_status w)
                     count (sleeps w))
  | Some (S n) =>
      (Some EBUSY, World (paths w) (Some n) (left_behind w) (exit_status w)
                     count (sleeps w))
  | Some O =>
      if bool_decide (p ∈ paths w) then
        (None, World (remove_path p (paths w)) (Some O) (left_behind w)
                 (exit_status w) count (sleeps w))
      else
        (Some ENOENT, World (paths w) (Some O) (left_behind w)
                        (exit_status w) count (sleeps w))
  end.

Definition rmdir (p : string) (w : world) : option errno * world :=
  let p := norm p in
  if negb (bool_decide (p ∈ paths w)) then (Some ENOENT, w)
  else if has_entries p (paths w) then (Some ENOTEMPTY, w)
  else (None, set_paths (remove_path p (paths w)) w).

Definition makedirs (p : string) (w : world) : world :=
  let p := norm p in
  if bool_decide (p ∈ paths w) then w else set_paths (paths w ++ [p]) w.

Definition sleep (w : world) : world :=
  World (paths w) (busy w) (left_behind w) (exit_status w) (unlinks w)
    (S (sleeps w)).

Definition launch (w : world) : Z * world :=
  (exit_status w,
   set_paths (paths w ++ List.filter (λ p, negb (bool_decide (p ∈ paths w)))
                           (left_behind w)) w).

#[global] Instance sim_host : Host world := {|
  os_path_exists p w := bool_decide (norm p ∈ paths w);
  os_makedirs := makedirs;
  os_unlink := unlink;
  os_rmdir := rmdir;
  time_sleep _ := sleep;
  get_host_tool name _ := Some ("/usr/bin/" ++ name);
  mount_source sb _ path := Py.join (_root sb) [Py.lstrip Py.sep path];
  mounted_enter w := w;
  mounted_exit w := w;
  popen _ _ _ _ := launch
|}.

(** Deferred actions that do nothing. *)
#[global] Instance sim_callbacks : Callbacks world := {|
  invoke _ s := (Return tt, s)
|}.

(** A backend that does implement [_run]: [false] exits with 1, every other
    command with 0. *)
Definition sim_backend : Backend world := {|
  _run command _ _ _ s :=
    (Return (if bool_decide (command = ["false"]) then 1 else 0), s)
|}.

Definition sandbox0 : sandbox := {|
  __directories := [];
  __cwd := None;
  __env := None;
  __allow_real_directory := true;
  __bare_directory := false;
  _root := "/sb/root";
  __scratch := Some "/sb/scratch";
  _output_directory := None;
  _never_cache_vdirs := false;
  __batch := None
|}.

Definition world0 : world := {|
  paths := ["/sb"; "/sb/root"; "/sb/scratch"];
  busy := Some O;
  left_behind := [];
  exit_status := 0;
  unlinks := 0;
  sleeps := 0
|}.

End Sim.

(** ** The vocabulary of the properties *)

Section Vocabulary.
Context {W : Type} `{!Host W} `{!Backend W} `{!Callbacks W}.

(** A root directory that is a proper directory name. *)
Definition plain_root (root : string) : Prop :=
  root ≠ "" ∧ Py.endswith Py.sep root = false.

(** The host after [n] failed attempts to unlink [path], each followed by
    the sleep of a hundredth of a second. *)
Fixpoint after_retries (n : nat) (path : string) (w : W) : W :=
  match n with
  | O => w
  | S n' =>
      time_sleep (1 # 100) (snd (os_unlink path (after_retries n' path w)))
  end.

(** The [n] first attempts on [path] all fail with [EBUSY]. *)
Definition busy_for (n : nat) (path : string) (w : W) : Prop :=
  ∀ k, (k < n)%nat → fst (os_unlink path (after_retries k path w)) = Some EBUSY.

(** A device the launcher still holds: the next [n] attempts find it busy,
    all of them when [n] is [None]. *)
Definition held_world (n : option nat) : Sim.world :=
  Sim.World ["/sb/root/dev/null"] n [] 0 0 0.

(** The busy error of [path] is raised again once [unlink] was called
    [attempts] times. *)
Definition reraised_after (attempts : nat) (path : string) (w : Sim.world)
  : Prop :=
  ∃ w', SandboxBwrap.try_remove_device path w = (Raise (OSError EBUSY), w')
        ∧ Sim.unlinks w' = (Sim.unlinks w + attempts)%nat.

(** A host on which nothing may be unlinked. *)
Definition denying_host : Host unit := {|
  os_path_exists _ _ := true;
  os_makedirs _ w := w;
  os_unlink _ w := (Some EACCES, w);
  os_rmdir _ w := (Some EACCES, w);
  time_sleep _ w := w;
  get_host_tool _ _ := None;
  mount_source _ _ path := path;
  mounted_enter w := w;
  mounted_exit w := w;
  popen _ _ _ _ w := (0, w)
|}.

(** The address environment resolution starts from: the one passed,
    otherwise the one set on the sandbox. *)
Definition chosen_env (sb : sandbox) (env : option loc) : option loc :=
  match env with
  | Some e => Some e
  | None => __env sb
  end.

(** The working directory [SandboxBwrap.run] settles on. *)
Definition bwrap_cwd (sb : sandbox) (cwd : option string) : string :=
  match cwd with
  | Some c => c
  | None => Py.or_default (__cwd sb) "/"
  end.

(** The dictionary store once [SandboxBwrap.run] has settled on an
    environment, and the address of that environment. *)
Definition bwrap_env (s : state W) (env : option loc) (e0 : loc)
  : loc * list (gmap string string) :=
  match env with
  | Some e => (e, dicts s)
  | None =>
      (length (dicts s),
       (dicts s ++ [<["PWD" := Py.or_default (__cwd (self s)) "/"]>
                      (deref s e0)])%list)
  end.

(** The calling state is fit for a launch: the real directory may be used,
    there is a scratch directory, the launcher is installed, and there is
    an environment, passed or set. *)
Definition launchable (s : state W) (env : option loc) (tool : string)
    (e0 : loc) : Prop :=
  __allow_real_directory (self s) = true
  ∧ __bare_directory (self s) = false
  ∧ is_Some (__scratch (self s))
  ∧ get_host_tool "bwrap" (host s) = Some tool
  ∧ (env = None → __env (self s) = Some e0).

(** The vector of the launcher, written out. *)
Definition launcher_vector (tool : string) (source : string → string)
    (flags : Z) (cwd : string) (marked_directories : list mark)
    (command : list string) : list string :=
  ([tool; "--unshare-pid"; "--bind"; source "/"; "/"]
  ++ (if Z.testbit flags 1 then [] else ["--unshare-net"])
  ++ ["--chdir"; cwd]
  ++ ["--proc"; "/proc"; "--tmpfs"; "/tmp"]
  ++ (if Z.testbit flags 2 then ["--dev"; "/dev"]
      else ["--dev-bind"; "/dev/full"; "/dev/full";
            "--dev-bind"; "/dev/null"; "/dev/null";
            "--dev-bind"; "/dev/urandom"; "/dev/urandom";
            "--dev-bind"; "/dev/random"; "/dev/random";
            "--dev-bind"; "/dev/zero"; "/dev/zero"])
  ++ concat (map (λ m, ["--bind"; source (directory m); directory m])
               marked_directories)
  ++ (if Z.testbit flags 0 then ["--remount-ro"; "/"] else [])
  ++ ["--unshare-user"; "--uid"; "0"; "--gid"; "0"]
  ++ command)%list.

(** A sandbox with an environment set, on a host where the launcher leaves
    [left] behind and [present] exists beside the root. *)
Definition staged (present left : list string) : state Sim.world :=
  State (set_env (Some 0%nat) Sim.sandbox0) [<["PATH" := "/bin"]> ∅]
    (Sim.World ("/sb/root" :: present) (Some 0%nat) left 0 0 0).

Definition root_basedirs : list string :=
  ["/sb/root/tmp"; "/sb/root/dev"; "/sb/root/proc"].

(** The caller's environment names another directory than the one the
    command is run in. *)
Definition elsewhere : state Sim.world :=
  State Sim.sandbox0 [<["PWD" := "/elsewhere"]> (<["PATH" := "/bin"]> ∅)]
    Sim.world0.

(** A batch is open and nothing is in it yet. *)
Definition batching : state Sim.world :=
  with_self (set_batch (Some (Batch (_SandboxBatchGroup None []) [] 0 None)))
    (staged [] []).

(** The working directory [Sandbox.run] settles on. *)
Definition work_directory (sb : sandbox) (cwd : option string) : string :=
  Py.or_default (Py.or_else cwd (__cwd sb)) "/".

(** The state once [run] has made the environment of the command. *)
Definition with_environment (s : state W) (cwd : option string) (e : loc)
  : state W :=
  State (self s)
    (dicts s ++ [<["PWD" := work_directory (self s) cwd]> (deref s e)])
    (host s).

Definition flags_message : string :=
  "Inconsistent sandbox flags in single command batch".

(** The batch a nested scope works in: the new group is the last child of
    the group that was current, and is current now. *)
Definition nested (label : option string) (b : _SandboxBatch)
  : _SandboxBatch :=
  Batch (append_at (current_group b) (_SandboxBatchGroup label [])
           (main_group b))
        (next_position (current_group b) (main_group b))
        (flags b) (collect b).

(** The state in which the body of an outermost scope starts. *)
Definition opened (fl : Z) (label coll : option string) (s : state W)
  : state W :=
  with_self (set_batch (Some (Batch (_SandboxBatchGroup label []) [] fl coll)))
    s.

(** An item that is not a group. *)
Definition is_leaf (it : _SandboxBatchItem) : Prop :=
  match it with
  | _SandboxBatchGroup _ _ => False
  | _ => True
  end.

(** The execution an item stands for, under the flags of the batch. *)
Definition executes (b : _SandboxBatch) (it : _SandboxBatchItem) (e : event)
  : Prop :=
  match it, e with
  | _SandboxBatchCommand _ command cwd _, EvRun command' fl cwd' _ =>
      command' = command ∧ fl = flags b ∧ cwd' = cwd
  | _SandboxBatchCall cb, EvCall cb' => cb' = cb
  | _, _ => False
  end.

(** Two runs that end alike and executed the same. *)
Definition same {A} (r r' : result (state W) A) : Prop :=
  out r = out r' ∧ final r = final r'
  ∧ executions (events r) = executions (events r').

(** Three commands, the second of which fails. *)
Definition three_commands : _SandboxBatch :=
  Batch (_SandboxBatchGroup (Some "build")
           [_SandboxBatchCommand None ["true"] "/" 0%nat;
            _SandboxBatchGroup None
              [_SandboxBatchCommand (Some "configure") ["false"] "/" 0%nat];
            _SandboxBatchCommand None ["make"; "install"] "/" 0%nat])
        [] 0 (Some "/install").

(** The group that is current in a batch is a group of its tree. *)
Definition open_ok (b : _SandboxBatch) : Prop :=
  ∃ label children,
    item_at (current_group b) (main_group b)
    = Some (_SandboxBatchGroup label children).

(** [b] after [current_group.append(it)]. *)
Definition appended (b : _SandboxBatch) (it : _SandboxBatchItem)
  : _SandboxBatch :=
  set_main_group (append_at (current_group b) it (main_group b)) b.

(** [b] after the items of [l] were appended to the current group. *)
Definition extended (b : _SandboxBatch) (l : list _SandboxBatchItem)
  : _SandboxBatch :=
  foldl appended b l.

(** What a computation does when all it may do is defer into the batch [b]:
    it logs nothing and leaves the host alone; when it returns, the batch
    is [b] with the items of [l] appended to the current group, and they
    mirror the statements [sts]; when it raises, a batch is still open. *)
Definition defers (sts : list stmt) (b : _SandboxBatch) (s : state W)
    (r : result (state W) unit) : Prop :=
  events r = [] ∧ host (final r) = host s
  ∧ match out r with
    | Return _ =>
        ∃ l, Forall2 mirrors sts l
             ∧ __batch (self (final r)) = Some (extended b l)
    | Raise _ => is_Some (__batch (self (final r)))
    end.

(** A scope with a nested scope in it. *)
Definition two_scopes : list stmt :=
  [SRun (Argv ["true"]) 0 None None None;
   SBatch 0 (Some "install") None
     [SRun (OneString "make") 0 None None (Some "make"); SCallback 7%nat];
   SCallback 8%nat].

(** A scope that fails after it was given a command. *)
Definition failing_scope : list stmt :=
  [SRun (Argv ["true"]) 0 None None None; SRaise (UserError "stop")].

End Vocabulary.

(** ** The constructor of [Sandbox] *)

Module SandboxNew.
Section Constructor.
Context {W : Type} `{!Host W}.

(** [Sandbox.__init__], for the arguments that decide the layout: the
    directory given and the keyword arguments [allow_real_directory] and
    [bare_directory].  The new object and the host after both
    [os.makedirs(..., exist_ok=True)]. *)
Definition __init__ (directory : string)
    (allow_real_directory bare_directory : bool) (w : W) : sandbox * W :=
  if bare_directory then
    let root := directory in
    (MkSandbox [] None None allow_real_directory bare_directory
       root None None false None,
     os_makedirs root w)
  else
    let root := Py.join directory ["root"] in
    let scratch := Py.join directory ["scratch"] in
    (MkSandbox [] None None allow_real_directory bare_directory
       root (Some scratch) None false None,
     os_makedirs scratch (os_makedirs root w)).

End Constructor.
End SandboxNew.

(** ** The process tree under the launcher *)

Module Supervision.











End Supervision.

(** ** A host that counts *)

(** A host together with the number of [unlink] calls and of sleeps made on
    it so far. *)
Record tally (W : Type) := Tally {
  inner : W;
  unlink_calls : nat;
  sleep_calls : nat
}.
Arguments Tally {W} _ _ _.
Arguments inner {W} _.
Arguments unlink_calls {W} _.
Arguments sleep_calls {W} _.

Definition on_inner {W} (f : W → W) (t : tally W) : tally W :=
  Tally (f (inner t)) (unlink_calls t) (sleep_calls t).

(** Every operation acts on the host inside; [unlink] and the sleep are
    counted. *)
Definition tally_host {W} `{!Host W} : Host (tally W) := {|
  os_path_exists p t := os_path_exists p (inner t);
  os_makedirs p := on_inner (os_makedirs p);
  os_unlink p t :=
    (fst (os_unlink p (inner t)),
     Tally (snd (os_unlink p (inner t))) (S (unlink_calls t)) (sleep_calls t));
  os_rmdir p t :=
    (fst (os_rmdir p (inner t)),
     on_inner (λ _, snd (os_rmdir p (inner t))) t);
  time_sleep d t :=
    Tally (time_sleep d (inner t)) (unlink_calls t) (S (sleep_calls t));
  get_host_tool name t := get_host_tool name (inner t);
  mount_source := mount_source;
  mounted_enter := on_inner mounted_enter;
  mounted_exit := on_inner mounted_exit;
  popen argv env inherit new_session t :=
    (fst (popen argv env inherit new_session (inner t)),
     on_inner (λ _, snd (popen argv env inherit new_session (inner t))) t)
|}.

(** ** A host that watches the mount scope *)

(** A host together with how often the mount scope was entered and left on
    it so far. *)
Record scoped (W : Type) := Scoped {
  under : W;
  entered : nat;
  exited : nat
}.
Arguments Scoped {W} _ _ _.
Arguments under {W} _.
Arguments entered {W} _.
Arguments exited {W} _.

(** Every operation acts on the host underneath; the two ends of the mount
    scope are counted. *)
Definition scoped_host {W} `{!Host W} : Host (scoped W) := {|
  os_path_exists p t := os_path_exists p (under t);
  os_makedirs p t := Scoped (os_makedirs p (under t)) (entered t) (exited t);
  os_unlink p t :=
    (fst (os_unlink p (under t)),
     Scoped (snd (os_unlink p (under t))) (entered t) (exited t));
  os_rmdir p t :=
    (fst (os_rmdir p (under t)),
     Scoped (snd (os_rmdir p (under t))) (entered t) (exited t));
  time_sleep d t := Scoped (time_sleep d (under t)) (entered t) (exited t);
  get_host_tool name t := get_host_tool name (under t);
  mount_source := mount_source;
  mounted_enter t := Scoped (mounted_enter (under t)) (S (entered t)) (exited t);
  mounted_exit t := Scoped (mounted_exit (under t)) (entered t) (S (exited t));
  popen argv env inherit new_session t :=
    (fst (popen argv env inherit new_session (under t)),
     Scoped (snd (popen argv env inherit new_session (under t)))
       (entered t) (exited t))
|}.

(** ** More vocabulary *)

Section MoreVocabulary.
Context {W : Type} `{!Host W} `{!Backend W} `{!Callbacks W}.

(** The state of a new sandbox on a host, with no dictionary yet. *)
Definition fresh_state (directory : string)
    (allow_real_directory bare_directory : bool) (w : W) : state W :=
  let made := SandboxNew.__init__ directory allow_real_directory
                bare_directory w in
  State (fst made) [] (snd made).

(** The state with the same sandbox and dictionaries on the counting
    host, the counters at zero. *)
Definition counted (s : state W) : state (tally W) :=
  State (self s) (dicts s) (Tally (host s) 0 0).


End MoreVocabulary.

(** ** Reading scripts *)

(** The commands and deferred actions of a statement, in the order they are
    written, scopes opened up. *)
Fixpoint script_leaves (st : stmt) : list stmt :=
  match st with
  | SBatch _ _ _ body => flat_map script_leaves body
  | leaf => [leaf]
  end.

(** The execution a statement of a scope asks for, under the flags of the
    scope. *)
Definition performs (fl : Z) (st : stmt) (e : event) : Prop :=
  match st, e with
  | SRun command _ _ _ _, EvRun command' fl' _ _ =>
      command' = as_list command ∧ fl' = fl
  | SCallback cb, EvCall cb' => cb' = cb
  | _, _ => False
  end.

(* ===================================================================== *)
(** * Part II: properties *)
(* ===================================================================== *)

(** ** Paths *)

Lemma string_app_nil (s : string) : "" ++ s = s.
Proof. reflexivity. Qed.

Lemma string_app_cons (a : ascii) (s t : string) :
  String a s ++ t = String a (s ++ t).
Proof. reflexivity. Qed.

Lemma string_app_assoc (a b c : string) : (a ++ b) ++ c = a ++ (b ++ c).
Proof.
  induction a as [|x a IH]; [done|].
  rewrite !string_app_cons. by f_equal.
Qed.

Lemma endswith_app (c : ascii) (a b : string) :
  b ≠ "" → Py.endswith c (a ++ b) = Py.endswith c b.
Proof.
  intros Hb. induction a as [|x a IH]; [done|].
  rewrite string_app_cons. simpl. rewrite IH.
  destruct (a ++ b) eqn:E; [|done].
  destruct a; [by rewrite string_app_nil in E; subst | discriminate].
Qed.

Lemma lstrip_not_abs (s : string) : Py.isabs (Py.lstrip Py.sep s) = false.
Proof.
  induction s as [|a s IH]; [done|].
  simpl. case_bool_decide as Ha; [exact IH|].
  unfold Py.isabs. simpl. by rewrite bool_decide_eq_false_2.
Qed.

Lemma join_relative (root rel : string) :
  plain_root root → Py.isabs rel = false →
  Py.join root [rel] = root ++ "/" ++ rel.
Proof.
  intros [Hne Hend] Hrel. unfold Py.join, Py.join2. simpl.
  unfold Py.isabs in Hrel. rewrite Hrel, Hend.
  by rewrite bool_decide_eq_false_2.
Qed.

Lemma plain_root_app (root rel : string) :
  plain_root root → rel ≠ "" → Py.endswith Py.sep rel = false →
  plain_root (root ++ "/" ++ rel).
Proof.
  intros [Hne Hend] Hrel Hrelend. split.
  - destruct root; [done | discriminate].
  - rewrite endswith_app; [|by destruct rel].
    change ("/" ++ rel) with (String "/" rel).
    simpl. by destruct rel.
Qed.

Lemma join_relative2 (root dir name : string) :
  plain_root root → Py.isabs dir = false → dir ≠ "" →
  Py.endswith Py.sep dir = false → Py.isabs name = false →
  Py.join root [dir; name] = root ++ "/" ++ dir ++ "/" ++ name.
Proof.
  intros Hroot Hdir Hne Hend Hname.
  change (Py.join root [dir; name])
    with (Py.join (Py.join root [dir]) [name]).
  rewrite (join_relative root dir) by done.
  rewrite join_relative; [|by apply plain_root_app|done].
  by rewrite !string_app_assoc.
Qed.

(** ** The command probe *)

Section ProbeProperties.
Context {W : Type} `{!Host W}.

Lemma has_command_absolute (s : state W) (command : string)
    (env : option loc) :
  Py.isabs command = true →
  Sandbox._has_command command env s
  = Result [] (Return (os_path_exists
                 (Py.join (_root (self s)) [Py.lstrip Py.sep command])
                 (host s))) s.
Proof.
  intros Habs. unfold Sandbox._has_command, bind, get. simpl.
  by rewrite Habs.
Qed.

Lemma has_command_relative (s : state W) (command : string) (e : loc)
    (value : string) :
  Py.isabs command = false → deref s e !! "PATH" = Some value →
  Sandbox._has_command command (Some e) s
  = Result [] (Return (existsb
       (λ path, os_path_exists
          (Py.join (_root (self s)) [Py.lstrip Py.sep path; command])
          (host s))
       (Py.split ":" value))) s.
Proof.
  intros Hrel Hpath. unfold Sandbox._has_command, bind, get. simpl.
  by rewrite Hrel, Hpath.
Qed.

(** C8.  The probe for a command: an absolute command is found exactly when
    the path made of the root and the command (less its leading separators)
    exists; a relative command, with [PATH] in the environment, is found
    exactly when for some entry [p] of the colon separated [PATH] the path
    made of the root, [p] (less its leading separators) and the command
    exists.  With a root that is a plain directory name, [/bin/sh] is found
    exactly when [<root>/bin/sh] exists, and [sh] with [PATH=/bin:/usr/bin]
    exactly when [<root>/bin/sh] or [<root>/usr/bin/sh] exists.  The probe
    changes nothing and logs nothing. *)
Theorem has_command_spec (s : state W) (command : string) :
  (Py.isabs command = true → ∀ env,
     Sandbox._has_command command env s
     = Result [] (Return (os_path_exists
         (Py.join (_root (self s)) [Py.lstrip Py.sep command]) (host s))) s)
  ∧ (Py.isabs command = false → ∀ e value,
       deref s e !! "PATH" = Some value →
       ∃ found : bool,
         Sandbox._has_command command (Some e) s
         = Result [] (Return found) s
         ∧ (found = true ↔
            ∃ p, p ∈ Py.split ":" value
                 ∧ os_path_exists
                     (Py.join (_root (self s)) [Py.lstrip Py.sep p; command])
                     (host s) = true))
  ∧ (plain_root (_root (self s)) → ∀ env,
       Sandbox._has_command "/bin/sh" env s
       = Result [] (Return (os_path_exists (_root (self s) ++ "/bin/sh")
                              (host s))) s)
  ∧ (plain_root (_root (self s)) → ∀ e,
       deref s e !! "PATH" = Some "/bin:/usr/bin" →
       ∃ found : bool,
         Sandbox._has_command "sh" (Some e) s = Result [] (Return found) s
         ∧ (found = true ↔
            os_path_exists (_root (self s) ++ "/bin/sh") (host s) = true
            ∨ os_path_exists (_root (self s) ++ "/usr/bin/sh") (host s)
              = true)).
Proof.
  split; [|split; [|split]].
  - intros Habs env. by apply has_command_absolute.
  - intros Hrel e value Hpath. eexists. split.
    + by apply has_command_relative.
    + rewrite existsb_exists. split.
      * intros (p & Hin & Hp). exists p. by rewrite list_elem_of_In.
      * intros (p & Hin & Hp). exists p. by rewrite <- list_elem_of_In.
  - intros Hroot env. rewrite has_command_absolute by done.
    change (Py.lstrip Py.sep "/bin/sh") with "bin/sh".
    by rewrite join_relative.
  - intros Hroot e Hpath. eexists. split.
    + by apply has_command_relative.
    + change (Py.split ":" "/bin:/usr/bin") with ["/bin"; "/usr/bin"].
      cbn [existsb].
      change (Py.lstrip Py.sep "/bin") with "bin".
      change (Py.lstrip Py.sep "/usr/bin") with "usr/bin".
      rewrite (join_relative2 _ "bin" "sh") by done.
      rewrite (join_relative2 _ "usr/bin" "sh") by done.
      rewrite orb_false_r, orb_true_iff. done.
Qed.

End ProbeProperties.

Lemma has_command_spec_witness :
  let s := State Sim.sandbox0 [<["PATH" := "/bin:/usr/bin"]> ∅]
             (Sim.set_paths ["/sb/root/usr/bin/sh"] Sim.world0) in
  Sandbox._has_command "/usr/bin/sh" None s = Result [] (Return true) s
  ∧ Sandbox._has_command "/bin/sh" None s = Result [] (Return false) s
  ∧ (∃ found : bool,
       Sandbox._has_command "sh" (Some 0%nat) s = Result [] (Return found) s
       ∧ (found = true ↔
          ∃ p, p ∈ Py.split ":" "/bin:/usr/bin"
               ∧ os_path_exists
                   (Py.join "/sb/root" [Py.lstrip Py.sep p; "sh"]) (host s)
                 = true))
  ∧ (∃ found : bool,
       Sandbox._has_command "sh" (Some 0%nat) s = Result [] (Return found) s
       ∧ (found = true ↔
          os_path_exists ("/sb/root" ++ "/bin/sh") (host s) = true
          ∨ os_path_exists ("/sb/root" ++ "/usr/bin/sh") (host s) = true)).
Proof.
  intros s.
  assert (Hroot : plain_root (_root (self s)))
    by (split; [discriminate | reflexivity]).
  split; [|split; [|split]].
  - exact (proj1 (has_command_spec s "/usr/bin/sh") eq_refl None).
  - exact (proj1 (proj2 (proj2 (has_command_spec s "/bin/sh"))) Hroot None).
  - exact (proj1 (proj2 (has_command_spec s "sh")) eq_refl 0%nat
             "/bin:/usr/bin" eq_refl).
  - exact (proj2 (proj2 (proj2 (has_command_spec s "sh"))) Hroot 0%nat
             eq_refl).
Defined.

(** ** Removing the devices left by the launcher *)

Section DeviceCleanup.
Context {W : Type} `{!Host W}.

Lemma after_retries_shift (n : nat) (path : string) (w : W) :
  after_retries (S n) path w
  = after_retries n path (time_sleep (1 # 100) (snd (os_unlink path w))).
Proof.
  induction n as [|n IH]; [done|].
  change (after_retries (S (S n)) path w)
    with (time_sleep (1 # 100)
            (snd (os_unlink path (after_retries (S n) path w)))).
  by rewrite IH.
Qed.

Lemma busy_for_shift (n : nat) (path : string) (w : W) :
  busy_for (S n) path w →
  fst (os_unlink path w) = Some EBUSY
  ∧ busy_for n path (time_sleep (1 # 100) (snd (os_unlink path w))).
Proof.
  intros Hbusy. split.
  - apply (Hbusy 0%nat). lia.
  - intros k Hk. rewrite <- after_retries_shift. apply Hbusy. lia.
Qed.

(** While the device stays busy and retries are left, the loop goes on. *)
Lemma try_remove_from_busy (n remaining : nat) (path : string) (w : W) :
  busy_for n path w →
  SandboxBwrap.try_remove_from (n + remaining) path w
  = SandboxBwrap.try_remove_from remaining path (after_retries n path w).
Proof.
  revert w. induction n as [|n IH]; intros w Hbusy; [done|].
  apply busy_for_shift in Hbusy as [Hfirst Hrest].
  rewrite after_retries_shift, <- (IH _ Hrest).
  change (S n + remaining)%nat with (S (n + remaining)).
  simpl. destruct (os_unlink path w) as [[e|] w'] eqn:E; simpl in *;
    [|discriminate].
  injection Hfirst as ->. by rewrite bool_decide_eq_true_2.
Qed.

(** What one attempt decides when it does not find the device busy. *)
Lemma try_remove_from_settled (remaining : nat) (path : string) (w : W) :
  fst (os_unlink path w) ≠ Some EBUSY →
  SandboxBwrap.try_remove_from remaining path w
  = (match fst (os_unlink path w) with
     | None | Some ENOENT => Return tt
     | Some e => Raise (OSError e)
     end, snd (os_unlink path w)).
Proof.
  intros Hfree. destruct remaining; simpl;
    destruct (os_unlink path w) as [[e|] w']; simpl in *; try done;
    (rewrite bool_decide_eq_false_2 by congruence);
    by destruct e.
Qed.

(** With no retry left a busy device is an error. *)
Lemma try_remove_from_exhausted (path : string) (w : W) :
  fst (os_unlink path w) = Some EBUSY →
  SandboxBwrap.try_remove_from 0 path w
  = (Raise (OSError EBUSY), snd (os_unlink path w)).
Proof.
  intros Hbusy. simpl. destruct (os_unlink path w) as [[e|] w']; simpl in *;
    [|discriminate].
  injection Hbusy as ->. by rewrite bool_decide_eq_true_2.
Qed.

(** C6, amended.  A busy device is tried again after a sleep of a hundredth
    of a second, at most 1000 times.  Busy at the first [n <= 1000] attempts
    and removed, or found missing, at the next one: success, after [n]
    sleeps and [n + 1] attempts.  Busy at the first 1001 attempts: the busy
    error is raised by the 1001st attempt, after exactly 1000 sleeps.  Any
    other error is raised by the attempt that meets it, with no further
    attempt. *)
Theorem try_remove_device_retries (path : string) (w : W) (n : nat) :
  (n ≤ 1000)%nat → busy_for n path w →
  let w_n := after_retries n path w in
  (fst (os_unlink path w_n) = None ∨ fst (os_unlink path w_n) = Some ENOENT →
     SandboxBwrap.try_remove_device path w
     = (Return tt, snd (os_unlink path w_n)))
  ∧ (n = 1000%nat → fst (os_unlink path w_n) = Some EBUSY →
     SandboxBwrap.try_remove_device path w
     = (Raise (OSError EBUSY), snd (os_unlink path w_n)))
  ∧ (∀ e, fst (os_unlink path w_n) = Some e → e ≠ EBUSY → e ≠ ENOENT →
     SandboxBwrap.try_remove_device path w
     = (Raise (OSError e), snd (os_unlink path w_n))).
Proof.
  intros Hn Hbusy w_n. unfold SandboxBwrap.try_remove_device.
  replace SandboxBwrap.max_tries with (n + (1000 - n))%nat
    by (unfold SandboxBwrap.max_tries; lia).
  rewrite (try_remove_from_busy n _ path w Hbusy). fold w_n.
  split; [|split].
  - intros Hok. rewrite try_remove_from_settled by (destruct Hok; congruence).
    by destruct Hok as [-> | ->].
  - intros -> Hstill. by apply try_remove_from_exhausted.
  - intros e He Hnb Hnm.
    rewrite try_remove_from_settled by congruence.
    rewrite He. by destruct e.
Qed.

End DeviceCleanup.

Lemma held_forever (k : nat) :
  Sim.busy (after_retries k "/sb/root/dev/null" (held_world None)) = None.
Proof.
  induction k as [|k IH]; [done|].
  cbn [after_retries]. cbn [os_unlink time_sleep Sim.sim_host].
  unfold Sim.unlink. by rewrite IH.
Qed.

Lemma try_remove_device_retries_witness :
  SandboxBwrap.try_remove_device "/sb/root/dev/null" (held_world (Some 3%nat))
  = (Return tt, Sim.World [] (Some 0%nat) [] 0 4 3)
  ∧ SandboxBwrap.try_remove_device "/sb/root/dev/null" (held_world None)
    = (Raise (OSError EBUSY),
       snd (os_unlink "/sb/root/dev/null"
              (after_retries 1000 "/sb/root/dev/null" (held_world None))))
  ∧ SandboxBwrap.try_remove_device (Host0 := denying_host) "/dev/null" tt
    = (Raise (OSError EACCES), tt).
Proof.
  split; [|split].
  - refine (proj1 (try_remove_device_retries "/sb/root/dev/null"
                     (held_world (Some 3%nat)) 3 _ _) _).
    + lia.
    + intros k Hk. destruct k as [|[|[|k]]]; [reflexivity..|lia].
    + left. reflexivity.
  - refine (proj1 (proj2 (try_remove_device_retries "/sb/root/dev/null"
                            (held_world None) 1000 _ _)) eq_refl _).
    + lia.
    + intros k _. cbn [os_unlink Sim.sim_host]. unfold Sim.unlink.
      by rewrite held_forever.
    + cbn [os_unlink Sim.sim_host]. unfold Sim.unlink.
      by rewrite held_forever.
  - refine (proj2 (proj2 (try_remove_device_retries (Host0 := denying_host)
                            "/dev/null" tt 0 _ _)) EACCES _ _ _).
    + lia.
    + intros k Hk. lia.
    + reflexivity.
    + discriminate.
    + discriminate.
Defined.

Lemma permanently_busy_run :
  SandboxBwrap.try_remove_device "/sb/root/dev/null" (held_world None)
  = (Raise (OSError EBUSY),
     Sim.World ["/sb/root/dev/null"] None [] 0 1001 1000).
Proof. vm_compute. reflexivity. Qed.

(** A device that stays busy makes [unlink] fail 1001 times, not 1000. *)
Lemma permanently_busy_not_1000 :
  ¬ reraised_after 1000 "/sb/root/dev/null" (held_world None).
Proof.
  intros (w' & Hrun & Hcount). rewrite permanently_busy_run in Hrun.
  injection Hrun as <-. simpl in Hcount. lia.
Qed.

(** A device busy at exactly 1000 attempts is still removed. *)
Lemma busy_1000_times_removed :
  SandboxBwrap.try_remove_device "/sb/root/dev/null"
    (held_world (Some 1000%nat))
  = (Return tt, Sim.World [] (Some 0%nat) [] 0 1001 1000).
Proof. vm_compute. reflexivity. Qed.

(** ** Flags *)

Lemma land_pow2 (a : Z) (k : Z) :
  0 ≤ k → Z.land a (2 ^ k) = if Z.testbit a k then 2 ^ k else 0.
Proof.
  intros Hk. apply Z.bits_inj'. intros n Hn.
  rewrite Z.land_spec, Z.pow2_bits_eqb by done.
  destruct (Z.eqb_spec k n) as [->|Hne].
  - destruct (Z.testbit a n); simpl.
    + by rewrite Z.pow2_bits_eqb, Z.eqb_refl.
    + by rewrite Z.bits_0.
  - rewrite andb_false_r. destruct (Z.testbit a k).
    + rewrite Z.pow2_bits_eqb by done. symmetry. by apply Z.eqb_neq.
    + by rewrite Z.bits_0.
Qed.

Lemma test_testbit (flags k : Z) :
  0 ≤ k → SandboxFlags.test flags (2 ^ k) = Z.testbit flags k.
Proof.
  intros Hk. unfold SandboxFlags.test. rewrite land_pow2 by done.
  destruct (Z.testbit flags k); [|done].
  apply negb_true_iff, Z.eqb_neq. pose proof (Z.pow_pos_nonneg 2 k). lia.
Qed.

Lemma test_read_only (flags : Z) :
  SandboxFlags.test flags SandboxFlags.ROOT_READ_ONLY = Z.testbit flags 0.
Proof. by apply (test_testbit flags 0). Qed.

Lemma test_network (flags : Z) :
  SandboxFlags.test flags SandboxFlags.NETWORK_ENABLED = Z.testbit flags 1.
Proof. by apply (test_testbit flags 1). Qed.

Lemma test_interactive (flags : Z) :
  SandboxFlags.test flags SandboxFlags.INTERACTIVE = Z.testbit flags 2.
Proof. by apply (test_testbit flags 2). Qed.

(** ** Running computations step by step *)

Section Steps.
Context {W : Type}.

Lemma result_eta {A} (r : result (state W) A) :
  Result (events r) (out r) (final r) = r.
Proof. by destruct r. Qed.

Lemma bind_Return {A B} (m : M W A) (k : A → M W B) (s s' : state W)
    (ev : list event) (a : A) :
  m s = Result ev (Return a) s' →
  bind m k s
  = Result (ev ++ events (k a s')) (out (k a s')) (final (k a s')).
Proof. intros Hm. unfold bind. by rewrite Hm. Qed.

Lemma bind_pure {A B} (m : M W A) (k : A → M W B) (s s' : state W) (a : A) :
  m s = Result [] (Return a) s' → bind m k s = k a s'.
Proof. intros Hm. rewrite (bind_Return _ _ _ _ _ _ Hm). apply result_eta. Qed.

Lemma bind_Raise {A B} (m : M W A) (k : A → M W B) (s s' : state W)
    (ev : list event) (e : exn) :
  m s = Result ev (Raise e) s' → bind m k s = Result ev (Raise e) s'.
Proof. intros Hm. unfold bind. by rewrite Hm. Qed.

Lemma bind_assoc {A B C} (m : M W A) (k : A → M W B) (k' : B → M W C)
    (s : state W) :
  bind (bind m k) k' s = bind m (λ a, bind (k a) k') s.
Proof.
  unfold bind. destruct (out (m s)) as [a|e]; cbn [out final events]; [|done].
  destruct (out (k a (final (m s)))); cbn [out final events];
    by rewrite ?app_assoc.
Qed.

Lemma bind_ext {A B} (m : M W A) (k k' : A → M W B) (s : state W) :
  (∀ a s', k a s' = k' a s') → bind m k s = bind m k' s.
Proof.
  intros Hk. unfold bind. destruct (out (m s)); [|done]. by rewrite Hk.
Qed.

Lemma then_ret_tt (m : M W unit) (s : state W) : (m ;;; ret tt) s = m s.
Proof.
  unfold bind, ret. destruct (m s) as [ev [[]|e] s']; cbn [out final events];
    by rewrite ?app_nil_r.
Qed.

Lemma bind_get {B} (k : state W → M W B) (s : state W) :
  bind get k s = k s s.
Proof. by apply bind_pure. Qed.

Lemma bind_ret {A B} (a : A) (k : A → M W B) (s : state W) :
  bind (ret a) k s = k a s.
Proof. by apply bind_pure. Qed.

Lemma bind_modify {B} (f : state W → state W) (k : unit → M W B)
    (s : state W) :
  bind (modify f) k s = k tt (f s).
Proof. by apply bind_pure. Qed.

Lemma bind_emit {B} (e : event) (k : unit → M W B) (s : state W) :
  bind (emit e) k s
  = Result (e :: events (k tt s)) (out (k tt s)) (final (k tt s)).
Proof. by apply (bind_Return (emit e) k s s [e] tt). Qed.

Lemma bind_raise {A B} (e : exn) (k : A → M W B) (s : state W) :
  bind (raise e) k s = Result [] (Raise e) s.
Proof. by apply bind_Raise. Qed.

Lemma finally_modify {A} (m : M W A) (f : state W → state W)
    (s : state W) :
  finally m (modify f) s
  = Result (events (m s)) (out (m s)) (f (final (m s))).
Proof. unfold finally, modify. cbn [out events final]. by rewrite app_nil_r. Qed.

Lemma bind_then_ret {A} (m : M W unit) (a : A) (s : state W) :
  events (m s) = [] →
  (m ;;; ret a) s
  = Result [] (match out (m s) with
               | Return _ => Return a
               | Raise e => Raise e
               end) (final (m s)).
Proof.
  intros Hev. unfold bind, ret. destruct (m s) as [ev [u|e] s'];
    cbn [out events final] in *; by subst.
Qed.

Lemma get_directory_ok (s : state W) :
  __allow_real_directory (self s) = true →
  Sandbox.get_directory s
  = Result [] (Return (_root (self s)))
      (with_self (set_never_cache_vdirs true) s).
Proof.
  intros Hreal. unfold Sandbox.get_directory. rewrite bind_get, Hreal.
  by rewrite bind_modify.
Qed.

Lemma get_scratch_directory_ok (s : state W) :
  __bare_directory (self s) = false →
  Sandbox._get_scratch_directory s
  = Result [] (Return (__scratch (self s))) s.
Proof.
  intros Hbare. unfold Sandbox._get_scratch_directory.
  rewrite bind_get, Hbare. unfold assert. cbn [negb].
  by rewrite bind_ret.
Qed.

Lemma get_work_directory_eq (cwd : option string) (s : state W) :
  Sandbox._get_work_directory cwd s
  = Result [] (Return (Py.or_default (Py.or_else cwd (__cwd (self s))) "/"))
      s.
Proof. unfold Sandbox._get_work_directory. by rewrite bind_get. Qed.

Lemma get_marked_directories_eq (s : state W) :
  Sandbox._get_marked_directories s
  = Result [] (Return (__directories (self s))) s.
Proof. unfold Sandbox._get_marked_directories. by rewrite bind_get. Qed.

Lemma get_environment_eq (cwd : option string) (env : option loc)
    (s : state W) :
  Sandbox._get_environment cwd env s
  = match chosen_env (self s) env with
    | None => Result [] (Raise TypeError) s
    | Some e =>
        Result [] (Return (length (dicts s)))
          (State (self s)
             (dicts s ++ [<["PWD" := Py.or_default
                                      (Py.or_else cwd (__cwd (self s))) "/"]>
                            (deref s e)])
             (host s))
    end.
Proof.
  unfold Sandbox._get_environment.
  rewrite (bind_pure _ _ _ _ _ (get_work_directory_eq cwd s)), bind_get.
  unfold chosen_env. by destruct env as [e|], (__env (self s)) as [e'|].
Qed.

End Steps.

(** ** The run of the bubblewrap backend *)

Section BwrapRun.
Context {W : Type} `{!Host W}.

Lemma cleanup_events (interactive : bool) (existing : string → bool)
    (root_mount_source : string) (s : state W) :
  events (SandboxBwrap.cleanup interactive existing root_mount_source s) = [].
Proof.
  unfold SandboxBwrap.cleanup, bind, lift_host, ret.
  destruct interactive; cbn [negb out events final app]; [done|].
  by destruct (fst (SandboxBwrap.remove_devices root_mount_source
                      SandboxBwrap.DEVICES (host s))).
Qed.

Lemma run_bwrap_eq (argv : list string) (env : loc) (interactive : bool)
    (s : state W) :
  SandboxBwrap.run_bwrap argv env interactive s
  = let launched :=
      popen argv (deref s env) interactive (negb interactive) (host s) in
    Result [EvPopen argv (deref s env) interactive (negb interactive)]
      (Return (fst launched)) (State (self s) (dicts s) (snd launched)).
Proof. unfold SandboxBwrap.run_bwrap. by rewrite bind_get, bind_emit. Qed.

(** [SandboxBwrap.run] on a launchable state, step by step. *)
Lemma run_launches (s : state W) (command : command_arg) (flags : Z)
    (cwd env : option _) (tool : string) (e0 : loc) :
  launchable s env tool e0 →
  let sb := set_never_cache_vdirs true (self s) in
  let cwd' := bwrap_cwd sb cwd in
  let env' := bwrap_env s env e0 in
  let s1 := State sb env'.2 (host s) in
  let mount_map := mount_source sb (Z.land flags SandboxFlags.ROOT_READ_ONLY) in
  let argv := SandboxBwrap.bwrap_command tool (mount_map "/") flags cwd'
                mount_map (__directories sb) (as_list command) in
  let interactive := SandboxFlags.test flags SandboxFlags.INTERACTIVE in
  let w1 := os_makedirs (Py.join (mount_map "/") [Py.lstrip Py.sep cwd'])
              (mounted_enter (host s)) in
  let launched :=
    popen argv (deref s1 env'.1) interactive (negb interactive) w1 in
  let c := SandboxBwrap.cleanup interactive
             (λ d, os_path_exists (Py.join (_root sb) [d]) (host s))
             (mount_map "/") (State sb env'.2 (snd launched)) in
  SandboxBwrap.run command flags cwd env s
  = Result [EvPopen argv (deref s1 env'.1) interactive (negb interactive)]
      (match out c with
       | Return _ => Return (fst launched)
       | Raise e => Raise e
       end)
      (with_host mounted_exit (final c)).
Proof.
  intros (Hreal & Hbare & [scratch Hscratch] & Htool & Henv).
  intros sb cwd' env' s1 mount_map argv interactive w1 launched c.
  unfold SandboxBwrap.run.
  rewrite (bind_pure _ _ _ _ _ (get_directory_ok s Hreal)).
  set (s0 := with_self (set_never_cache_vdirs true) s).
  rewrite (bind_pure _ _ _ _ _ (get_scratch_directory_ok s0 Hbare)).
  change (__scratch (self s0)) with (__scratch (self s)).
  rewrite Hscratch, bind_ret.
  assert (Hcwd : (match cwd with
                  | Some c0 => ret c0
                  | None => Sandbox._get_work_directory None
                  end) s0 = Result [] (Return cwd') s0).
  { destruct cwd; [done|]. by rewrite get_work_directory_eq. }
  rewrite (bind_pure _ _ _ _ _ Hcwd).
  assert (Hresolve : (match env with
                      | Some e => ret e
                      | None => Sandbox._get_environment None None
                      end) s0 = Result [] (Return env'.1) s1).
  { subst env' s1. destruct env as [e|]; [done|].
    rewrite get_environment_eq. unfold chosen_env.
    change (__env (self s0)) with (__env (self s)).
    by rewrite (Henv eq_refl). }
  rewrite (bind_pure _ _ _ _ _ Hresolve), bind_get.
  change (host s1) with (host s). rewrite Htool, bind_ret.
  rewrite (bind_pure _ _ _ _ _ (get_marked_directories_eq s1)).
  rewrite bind_modify, finally_modify, bind_modify.
  erewrite bind_Return; [|apply run_bwrap_eq].
  rewrite bind_then_ret by apply cleanup_events.
  reflexivity.
Qed.

Lemma fold_left_extend {A} (f : A → list string) (l : list A)
    (init : list string) :
  fold_left (λ acc x, (acc ++ f x)%list) l init
  = (init ++ concat (map f l))%list.
Proof.
  revert init. induction l as [|x l IH]; intros init; simpl.
  - by rewrite app_nil_r.
  - by rewrite IH, app_assoc.
Qed.

Lemma bwrap_command_eq (tool : string) (source : string → string)
    (flags : Z) (cwd : string) (marked_directories : list mark)
    (command : list string) :
  SandboxBwrap.bwrap_command tool (source "/") flags cwd source
    marked_directories command
  = launcher_vector tool source flags cwd marked_directories command.
Proof.
  unfold SandboxBwrap.bwrap_command, launcher_vector.
  rewrite test_network, test_interactive, test_read_only.
  rewrite (fold_left_extend
             (λ m, ["--bind"; source (directory m); directory m])).
  destruct (Z.testbit flags 1), (Z.testbit flags 2), (Z.testbit flags 0);
    cbn [negb fold_left SandboxBwrap.DEVICES];
    by rewrite <- ?app_assoc.
Qed.

(** C4.  On every state fit for a launch and for every flag combination the
    backend starts the launcher exactly once, with the vector: the launcher
    binary; a new PID namespace; the root mount source bound at [/];
    network isolation exactly when the NETWORK_ENABLED bit (bit 1) is
    unset; [--chdir] to the working directory the run settled on; a fresh
    [/proc] and an empty [/tmp]; the whole [/dev] when the INTERACTIVE bit
    (bit 2) is set, otherwise a [--dev-bind] of each of [/dev/full],
    [/dev/null], [/dev/urandom], [/dev/random], [/dev/zero]; a bind of
    every marked directory, in the order they were marked; a read-only
    remount of [/] exactly when the ROOT_READ_ONLY bit (bit 0) is set, behind
    all those binds; the user namespace with uid 0 and gid 0; the command.
    Standard input is inherited, and no new session is started, exactly
    when the run is interactive. *)
Theorem launcher_argv (s : state W) (command : command_arg) (flags : Z)
    (cwd : option string) (env : option loc) (tool : string) (e0 : loc) :
  launchable s env tool e0 →
  let source := mount_source (set_never_cache_vdirs true (self s))
                  (Z.land flags SandboxFlags.ROOT_READ_ONLY) in
  ∃ environment : gmap string string,
    events (SandboxBwrap.run command flags cwd env s)
    = [EvPopen
         ([tool; "--unshare-pid"; "--bind"; source "/"; "/"]%list
          ++ (if Z.testbit flags 1 then [] else ["--unshare-net"])
          ++ ["--chdir"; bwrap_cwd (self s) cwd]
          ++ ["--proc"; "/proc"; "--tmpfs"; "/tmp"]
          ++ (if Z.testbit flags 2 then ["--dev"; "/dev"]
              else ["--dev-bind"; "/dev/full"; "/dev/full";
                    "--dev-bind"; "/dev/null"; "/dev/null";
                    "--dev-bind"; "/dev/urandom"; "/dev/urandom";
                    "--dev-bind"; "/dev/random"; "/dev/random";
                    "--dev-bind"; "/dev/zero"; "/dev/zero"])
          ++ concat (map (λ m, ["--bind"; source (directory m); directory m])
                       (__directories (self s)))
          ++ (if Z.testbit flags 0 then ["--remount-ro"; "/"] else [])
          ++ ["--unshare-user"; "--uid"; "0"; "--gid"; "0"]
          ++ as_list command)%list
         environment (Z.testbit flags 2) (negb (Z.testbit flags 2))].
Proof.
  intros Hfit source.
  rewrite (run_launches s command flags cwd env tool e0 Hfit).
  cbn [events]. rewrite bwrap_command_eq, test_interactive.
  eexists. reflexivity.
Qed.

End BwrapRun.

Lemma launcher_argv_witness :
  ∃ environment : gmap string string,
    events (SandboxBwrap.run (Argv ["make"; "install"]) 1 (Some "/build")
              (Some 0%nat)
              (State (set_directories [Mark "/build" false] Sim.sandbox0)
                     [∅] Sim.world0))
    = [EvPopen
         ["/usr/bin/bwrap"; "--unshare-pid"; "--bind"; "/sb/root/"; "/";
          "--unshare-net"; "--chdir"; "/build";
          "--proc"; "/proc"; "--tmpfs"; "/tmp";
          "--dev-bind"; "/dev/full"; "/dev/full";
          "--dev-bind"; "/dev/null"; "/dev/null";
          "--dev-bind"; "/dev/urandom"; "/dev/urandom";
          "--dev-bind"; "/dev/random"; "/dev/random";
          "--dev-bind"; "/dev/zero"; "/dev/zero";
          "--bind"; "/sb/root/build"; "/build";
          "--remount-ro"; "/";
          "--unshare-user"; "--uid"; "0"; "--gid"; "0";
          "make"; "install"]
         environment false true].
Proof.
  assert (Hfit : launchable
            (State (set_directories [Mark "/build" false] Sim.sandbox0)
                   [∅] Sim.world0)
            (Some 0%nat) "/usr/bin/bwrap" 0%nat).
  { repeat split; [by eexists | discriminate]. }
  exact (launcher_argv
           (State (set_directories [Mark "/build" false] Sim.sandbox0)
                  [∅] Sim.world0)
           (Argv ["make"; "install"]) 1 (Some "/build") (Some 0%nat)
           "/usr/bin/bwrap" 0%nat Hfit).
Defined.

(** ** The directories the launcher creates at the root *)

Section Basedirs.
Context {W : Type} `{!Host W}.

(** Nothing is removed of what did not exist before the launch, whatever the
    launcher left at the root. *)
Lemma remove_basedirs_none_existing (existing : string → bool)
    (root_mount_source : string) (dirs : list string) (w : W) :
  (∀ d, d ∈ dirs → existing d = false) →
  SandboxBwrap.remove_basedirs existing root_mount_source dirs w
  = (Return tt, w).
Proof.
  induction dirs as [|d dirs IH]; intros Hnone; [done|].
  cbn [SandboxBwrap.remove_basedirs].
  rewrite (Hnone d) by apply list_elem_of_here. cbn [negb].
  apply IH. intros d' Hd'. apply Hnone. by apply list_elem_of_further.
Qed.

(** What did exist before the launch is the target of [rmdir]. *)
Lemma remove_basedirs_existing (existing : string → bool)
    (root_mount_source d : string) (dirs : list string) (w : W) :
  existing d = true →
  fst (os_rmdir (Py.join root_mount_source [d]) w) = None →
  SandboxBwrap.remove_basedirs existing root_mount_source (d :: dirs) w
  = SandboxBwrap.remove_basedirs existing root_mount_source dirs
      (snd (os_rmdir (Py.join root_mount_source [d]) w)).
Proof.
  intros Hex Hrm. cbn [SandboxBwrap.remove_basedirs]. rewrite Hex.
  cbn [negb]. destruct (os_rmdir _ w) as [[e|] w']; [discriminate|done].
Qed.

End Basedirs.

(** C1, what the code does.  A run that is not interactive, at a root where
    none of [tmp], [dev], [proc] existed and the launcher left all three:
    the run succeeds and all three are still there.  At a root where the
    three did exist, and the launcher left nothing: the run removes them. *)
Theorem basedirs_cleanup_inverted :
  let fresh := SandboxBwrap.run (Argv ["true"]) 0 None None
                 (staged [] root_basedirs) in
  let reused := SandboxBwrap.run (Argv ["true"]) 0 None None
                  (staged root_basedirs []) in
  out fresh = Return 0
  ∧ map (λ d, os_path_exists d (host (staged [] root_basedirs)))
      root_basedirs = [false; false; false]
  ∧ map (λ d, os_path_exists d (host (final fresh))) root_basedirs
    = [true; true; true]
  ∧ out reused = Return 0
  ∧ map (λ d, os_path_exists d (host (staged root_basedirs [])))
      root_basedirs = [true; true; true]
  ∧ map (λ d, os_path_exists d (host (final reused))) root_basedirs
    = [false; false; false].
Proof. cbv zeta. repeat split; vm_compute; reflexivity. Qed.

(** ** The environment handed to the launcher *)

(** C7, what the code does.  The backend is asked to run [pwd] in [/build]
    with an environment whose [PWD] is [/elsewhere]: the launcher is told to
    change to [/build] and is given [PWD=/elsewhere].  Asked to run it in
    [/build] with the environment set on the sandbox, whose work directory
    is not set, it gives [PWD=/]. *)
Theorem bwrap_pwd_not_forced :
  (∃ argv environment inherit_stdin new_session,
     events (SandboxBwrap.run (Argv ["pwd"]) 0 (Some "/build") (Some 0%nat)
               elsewhere)
     = [EvPopen argv environment inherit_stdin new_session]
     ∧ ["--chdir"; "/build"] = take 2 (drop 6 argv)
     ∧ environment !! "PWD" = Some "/elsewhere")
  ∧ (∃ argv environment inherit_stdin new_session,
       events (SandboxBwrap.run (Argv ["pwd"]) 0 (Some "/build") None
                 (staged [] []))
       = [EvPopen argv environment inherit_stdin new_session]
       ∧ ["--chdir"; "/build"] = take 2 (drop 6 argv)
       ∧ environment !! "PWD" = Some "/").
Proof.
  split; eexists _, _, _, _; (split; [vm_compute; reflexivity|]);
    split; vm_compute; reflexivity.
Qed.

(** ** [run] of the bubblewrap backend inside a batch *)

(** C2, what the code does.  With a batch open, [run] of the bubblewrap
    backend starts the launcher at once, returns its exit status, and leaves
    the tree of the batch as it was: nothing is deferred.  So a command run
    inside a [batch] scope of this backend has been launched before the
    scope is left. *)
Theorem bwrap_run_ignores_batch :
  (let r := SandboxBwrap.run (Argv ["true"]) 0 None None batching in
   out r = Return 0
   ∧ (∃ argv environment, events r = [EvPopen argv environment false true])
   ∧ __batch (self (final r)) = __batch (self batching))
  ∧ (let b := @Sandbox.batch _ (SandboxBwrap_backend _) _ 0 None None
                (SandboxBwrap.run (Argv ["true"]) 0 None None ;;; ret tt)
                (staged [] []) in
     out b = Return tt
     ∧ ∃ argv environment, events b = [EvPopen argv environment false true]).
Proof.
  split; cbv zeta.
  - split; [vm_compute; reflexivity|]. split; [|vm_compute; reflexivity].
    eexists _, _. vm_compute. reflexivity.
  - split; [vm_compute; reflexivity|].
    eexists _, _. vm_compute. reflexivity.
Qed.

(** ** [Sandbox.run], [Sandbox._callback] and [Sandbox.batch], step by step *)

Lemma or_default_nonempty (a : option string) (d : string) :
  d ≠ "" → Py.or_default a d ≠ "".
Proof.
  intros Hd. destruct a as [x|]; simpl; [|done]. by case_bool_decide.
Qed.

Lemma work_directory_again (sb : sandbox) (cwd : option string) :
  work_directory sb (Some (work_directory sb cwd)) = work_directory sb cwd.
Proof.
  unfold work_directory at 1. unfold Py.or_else, Py.truthy.
  assert (Hne : work_directory sb cwd ≠ "")
    by (by apply or_default_nonempty).
  rewrite bool_decide_eq_false_2 by done. simpl.
  by rewrite bool_decide_eq_false_2.
Qed.

Section SandboxSteps.
Context {W : Type} `{!Backend W} `{!Callbacks W}.

Lemma call_run_eq (command : list string) (fl : Z) (cwd : string)
    (env : loc) (s : state W) :
  SandboxBatch.call_run command fl cwd env s
  = Result [EvRun command fl cwd (deref s env)]
      (fst (_run command fl cwd env s)) (snd (_run command fl cwd env s)).
Proof. unfold SandboxBatch.call_run. by rewrite bind_get, bind_emit. Qed.

(** [Sandbox.run], all cases. *)
Lemma run_eq (command : command_arg) (fl : Z) (cwd : option string)
    (env : option loc) (label : option string) (s : state W) :
  Sandbox.run command fl cwd env label s
  = match chosen_env (self s) env with
    | None => Result [] (Raise TypeError) s
    | Some e =>
        let cwd' := work_directory (self s) cwd in
        let l := length (dicts s) in
        let s1 := with_environment s cwd e in
        match __batch (self s) with
        | Some b =>
            if fl =? flags b then
              Result [] (Return None)
                (with_self (set_batch (Some (set_main_group
                   (append_at (current_group b)
                      (_SandboxBatchCommand label (as_list command) cwd' l)
                      (main_group b)) b))) s1)
            else Result [] (Raise (AssertionError flags_message)) s1
        | None =>
            let r := _run (as_list command) fl cwd' l s1 in
            Result [EvRun (as_list command) fl cwd'
                      (<["PWD" := cwd']> (deref s e))]
              (match fst r with
               | Return code => Return (Some code)
               | Raise x => Raise x
               end) (snd r)
        end
    end.
Proof.
  unfold Sandbox.run.
  rewrite (bind_pure _ _ _ _ _ (get_work_directory_eq cwd s)).
  fold (work_directory (self s) cwd).
  destruct (chosen_env (self s) env) as [e|] eqn:Hchosen.
  - erewrite bind_pure; last first.
    { rewrite get_environment_eq, Hchosen. reflexivity. }
    fold (work_directory (self s) (Some (work_directory (self s) cwd))).
    rewrite work_directory_again. fold (with_environment s cwd e).
    rewrite bind_get.
    change (self (with_environment s cwd e)) with (self s).
    destruct (__batch (self s)) as [[main current bfl bcoll]|].
    + cbn [flags current_group main_group]. unfold assert.
      destruct (fl =? bfl).
      * rewrite bind_ret. unfold Sandbox.append_to_current.
        by rewrite bind_modify.
      * by rewrite bind_raise.
    + unfold bind. rewrite call_run_eq.
      assert (Hd : deref (with_environment s cwd e) (length (dicts s))
                   = <["PWD" := work_directory (self s) cwd]> (deref s e)).
      { unfold deref, with_environment. cbn [dicts].
        by rewrite lookup_app_r, Nat.sub_diag. }
      rewrite Hd. cbn [events out final ret app].
      by destruct (fst (_run _ _ _ _ _)).
  - erewrite bind_Raise; [done|].
    by rewrite get_environment_eq, Hchosen.
Qed.

(** [Sandbox._callback], both cases. *)
Lemma callback_eq (cb : callback) (s : state W) :
  Sandbox._callback cb s
  = match __batch (self s) with
    | Some b =>
        Result [] (Return tt)
          (with_self (set_batch (Some (set_main_group
             (append_at (current_group b) (_SandboxBatchCall cb)
                (main_group b)) b))) s)
    | None =>
        Result [EvCall cb] (fst (invoke cb s)) (snd (invoke cb s))
    end.
Proof.
  unfold Sandbox._callback. rewrite bind_get.
  destruct (__batch (self s)) as [b|]; [done|].
  unfold SandboxBatch.execute_call. by rewrite bind_emit.
Qed.

(** [Sandbox.batch] inside an open batch. *)
Lemma batch_nested_eq (fl : Z) (label coll : option string)
    (body : M W unit) (s : state W) (b : _SandboxBatch) :
  __batch (self s) = Some b →
  Sandbox.batch fl label coll body s
  = if fl =? flags b then
      finally body (Sandbox.restore_group (current_group b))
        (with_self (set_batch (Some (nested label b))) s)
    else Result [] (Raise (AssertionError flags_message)) s.
Proof.
  intros Hopen. unfold Sandbox.batch. rewrite bind_get, Hopen.
  destruct b as [main current bfl bcoll].
  cbn [flags current_group main_group]. unfold assert.
  destruct (fl =? bfl).
  - by rewrite bind_ret, bind_modify.
  - by rewrite bind_raise.
Qed.

(** [Sandbox.batch] with no batch open. *)
Lemma batch_top_eq (fl : Z) (label coll : option string)
    (body : M W unit) (s : state W) :
  __batch (self s) = None →
  let r := body (opened fl label coll s) in
  let closed := with_self (set_batch None) (final r) in
  Sandbox.batch fl label coll body s
  = match out r with
    | Return _ =>
        let b := default (Batch (_SandboxBatchGroup label []) [] fl coll)
                   (__batch (self (final r))) in
        let x := SandboxBatch.execute b closed in
        Result (events r ++ events x) (out x) (final x)
    | Raise e => Result (events r) (Raise e) closed
    end.
Proof.
  intros Hidle r closed. unfold Sandbox.batch.
  rewrite bind_get, Hidle, bind_modify. fold (opened fl label coll s).
  unfold Sandbox._create_batch.
  assert (Hbody : finally (body ;;; Sandbox.the_batch
                    (Batch (_SandboxBatchGroup label []) [] fl coll))
                    (modify (with_self (set_batch None)))
                    (opened fl label coll s)
                  = Result (events r)
                      (match out r with
                       | Return _ =>
                           Return (default
                             (Batch (_SandboxBatchGroup label []) [] fl coll)
                             (__batch (self (final r))))
                       | Raise e => Raise e
                       end) closed).
  { rewrite finally_modify. unfold bind. fold r.
    destruct (out r); cbn [events out final]; [|done].
    unfold Sandbox.the_batch. rewrite bind_get.
    cbn [events out final ret]. by rewrite app_nil_r. }
  change (with_self _ s) with (opened fl label coll s).
  unfold bind at 1. rewrite Hbody. cbn [events out final].
  by destruct (out r).
Qed.

End SandboxSteps.

(** ** The environment of a command *)

Section Environment.
Context {W : Type} `{!Backend W}.

(** C10.  A [run] with no environment passed and none set raises at the
    resolution of the environment: nothing is logged and the state is the
    one before the call, so nothing was run or deferred.  With an
    environment passed or set, the resolution returns the address of a new
    dictionary: the address was not in use, the dictionary is the chosen one
    with [PWD] set to the working directory, and every dictionary that was
    there, the sandbox object and the host are as before. *)
Theorem environment_required (s : state W) :
  (∀ command fl cwd label,
     __env (self s) = None →
     Sandbox.run command fl cwd None label s = Result [] (Raise TypeError) s)
  ∧ (∀ cwd env e,
       chosen_env (self s) env = Some e →
       let r := Sandbox._get_environment cwd env s in
       ∃ l : loc,
         out r = Return l
         ∧ events r = []
         ∧ dicts s !! l = None
         ∧ dicts (final r) !! l
           = Some (<["PWD" := work_directory (self s) cwd]> (deref s e))
         ∧ (∀ l', (l' < length (dicts s))%nat →
                  dicts (final r) !! l' = dicts s !! l')
         ∧ self (final r) = self s
         ∧ host (final r) = host s).
Proof.
  split.
  - intros command fl cwd label Hnone. rewrite run_eq.
    unfold chosen_env. by rewrite Hnone.
  - intros cwd env e Hchosen r. subst r.
    rewrite get_environment_eq, Hchosen. cbn [out events final dicts self host].
    exists (length (dicts s)). repeat split.
    + by apply lookup_ge_None.
    + by rewrite lookup_app_r, Nat.sub_diag.
    + intros l' Hl'. by rewrite lookup_app_l.
Qed.

End Environment.

Lemma environment_required_witness :
  Sandbox.run (Backend0 := Sim.sim_backend) (Argv ["true"]) 0 None None None
    (State Sim.sandbox0 [] Sim.world0)
  = Result [] (Raise TypeError) (State Sim.sandbox0 [] Sim.world0)
  ∧ ∃ l : loc,
      out (Sandbox._get_environment (Some "/build") None (staged [] []))
      = Return l
      ∧ events (Sandbox._get_environment (Some "/build") None (staged [] []))
        = []
      ∧ dicts (staged [] []) !! l = None
      ∧ dicts (final (Sandbox._get_environment (Some "/build") None
                        (staged [] []))) !! l
        = Some (<["PWD" := "/build"]> (<["PATH" := "/bin"]> ∅))
      ∧ (∀ l', (l' < 1)%nat →
           dicts (final (Sandbox._get_environment (Some "/build") None
                           (staged [] []))) !! l'
           = dicts (staged [] []) !! l')
      ∧ self (final (Sandbox._get_environment (Some "/build") None
                       (staged [] []))) = self (staged [] [])
      ∧ host (final (Sandbox._get_environment (Some "/build") None
                       (staged [] []))) = host (staged [] []).
Proof.
  split.
  - exact (proj1 (environment_required (Backend0 := Sim.sim_backend)
                    (State Sim.sandbox0 [] Sim.world0))
             (Argv ["true"]) 0 None None eq_refl).
  - exact (proj2 (environment_required (Backend0 := Sim.sim_backend)
                    (staged [] []))
             (Some "/build") None 0%nat eq_refl).
Defined.

(** ** The batch engine *)

Lemma item_nested_ind (P : _SandboxBatchItem → Prop) :
  (∀ label command cwd env,
     P (_SandboxBatchCommand label command cwd env)) →
  (∀ label children, Forall P children →
     P (_SandboxBatchGroup label children)) →
  (∀ cb, P (_SandboxBatchCall cb)) →
  ∀ it, P it.
Proof.
  intros Hcommand Hgroup Hcall. fix IH 1. intros [label command cwd env|label children|cb].
  - apply Hcommand.
  - apply Hgroup. induction children as [|c children IHc]; constructor.
    + apply IH.
    + exact IHc.
  - apply Hcall.
Qed.

Lemma flatten_leaves (it : _SandboxBatchItem) : Forall is_leaf (flatten it).
Proof.
  induction it as [label command cwd env|label children IH|cb]
    using item_nested_ind; simpl.
  - by repeat constructor.
  - induction IH as [|c children Hc _ IHcs]; simpl; [constructor|].
    by apply Forall_app.
  - by repeat constructor.
Qed.

Section Engine.
Context {W : Type} `{!Backend W} `{!Callbacks W}.

Lemma same_refl {A} (r : result (state W) A) : same r r.
Proof. done. Qed.

Lemma executions_app (l l' : list event) :
  executions (l ++ l') = (executions l ++ executions l')%list.
Proof. apply List.filter_app. Qed.

Lemma same_bind {A B} (m m' : M W A) (k k' : A → M W B) (s : state W) :
  same (m s) (m' s) → (∀ a s', same (k a s') (k' a s')) →
  same (bind m k s) (bind m' k' s).
Proof.
  intros (Hout & Hfinal & Hev) Hk. unfold bind. rewrite <- Hout, <- Hfinal.
  destruct (out (m s)) as [a|e].
  - destruct (Hk a (final (m s))) as (Hout' & Hfinal' & Hev').
    repeat split; cbn [out final events]; [done..|].
    by rewrite !executions_app, Hev, Hev'.
  - by repeat split.
Qed.

Lemma same_timed_activity {A} (label : string) (m : M W A) (s : state W) :
  same (SandboxBatch.timed_activity label m s) (m s).
Proof.
  unfold SandboxBatch.timed_activity. rewrite bind_emit.
  unfold finally, emit. cbn [out final events].
  repeat split. unfold executions.
  cbn [List.filter is_execution events]. rewrite List.filter_app.
  cbn [List.filter is_execution]. by rewrite app_nil_r.
Qed.

Lemma execute_item_group (b : _SandboxBatch) (label : option string)
    (children : list _SandboxBatchItem) :
  SandboxBatch.execute_item b (_SandboxBatchGroup label children)
  = SandboxBatch.execute_group b label children.
Proof. reflexivity. Qed.

Lemma execute_children_cons (b : _SandboxBatch) (c : _SandboxBatchItem)
    (l : list _SandboxBatchItem) :
  SandboxBatch.execute_children b (c :: l)
  = (SandboxBatch.execute_item b c ;;; SandboxBatch.execute_children b l).
Proof. reflexivity. Qed.

Lemma execute_children_app (b : _SandboxBatch)
    (l l' : list _SandboxBatchItem) (s : state W) :
  SandboxBatch.execute_children b (l ++ l') s
  = (SandboxBatch.execute_children b l ;;;
     SandboxBatch.execute_children b l') s.
Proof.
  revert s. induction l as [|c l IH]; intros s.
  - change (SandboxBatch.execute_children b []) with (@ret W _ tt).
    by rewrite bind_ret.
  - cbn [app]. rewrite !execute_children_cons, bind_assoc.
    apply bind_ext. intros _ s'. apply IH.
Qed.

(** Execution is depth first and in order: a tree runs as the list of its
    commands and calls does. *)
Lemma execute_flatten (b : _SandboxBatch) (it : _SandboxBatchItem)
    (s : state W) :
  same (SandboxBatch.execute_item b it s)
       (SandboxBatch.execute_children b (flatten it) s).
Proof.
  revert s. induction it as [label command cwd env|label children IH|cb]
    using item_nested_ind; intros s.
  - cbn [flatten]. rewrite execute_children_cons.
    change (SandboxBatch.execute_children b []) with (@ret W _ tt).
    rewrite then_ret_tt. apply same_refl.
  - rewrite execute_item_group. cbn [flatten].
    assert (Hchildren : ∀ s', same
              (SandboxBatch.execute_children b children s')
              (SandboxBatch.execute_children b (flat_map flatten children) s')).
    { induction IH as [|c children Hc _ IHcs]; intros s'; [done|].
      cbn [flat_map]. rewrite execute_children_app, execute_children_cons.
      apply same_bind; [apply Hc|].
      intros _ s''. apply IHcs. }
    unfold SandboxBatch.execute_group. destruct (Py.truthy label).
    + destruct (same_timed_activity (default "" label)
                  (SandboxBatch.execute_children b children) s)
        as (Ho & Hf & He).
      destruct (Hchildren s) as (Ho' & Hf' & He').
      repeat split; congruence.
    + apply Hchildren.
  - cbn [flatten]. rewrite execute_children_cons.
    change (SandboxBatch.execute_children b []) with (@ret W _ tt).
    rewrite then_ret_tt. apply same_refl.
Qed.

(** [_SandboxBatch.execute_command], all cases. *)
Lemma execute_command_eq (b : _SandboxBatch) (label : option string)
    (command : list string) (cwd : string) (env : loc) (s : state W) :
  SandboxBatch.execute_command b label command cwd env s
  = let r := _run command (flags b) cwd env s in
    Result
      ((if Py.truthy label then [EvStatus (default "" label)] else [])
       ++ [EvRun command (flags b) cwd (deref s env)])
      (match fst r with
       | Return code =>
           if negb (code =? 0) then
             Raise (SandboxCommandError
                      (SandboxBatch.failure_message
                         (Py.or_default label (SandboxBatch.cmdline command))
                         code)
                      (collect b))
           else Return tt
       | Raise e => Raise e
       end)
      (snd r).
Proof.
  unfold SandboxBatch.execute_command.
  assert (Hstatus : (if Py.truthy label
                     then emit (EvStatus (default "" label)) else ret tt) s
                    = Result (if Py.truthy label
                              then [EvStatus (default "" label)] else [])
                        (Return tt) s)
    by (by destruct (Py.truthy label)).
  rewrite (bind_Return _ _ _ _ _ _ Hstatus).
  unfold bind. rewrite call_run_eq. cbn [out final events].
  destruct (fst (_run command (flags b) cwd env s)) as [code|e];
    cbn [out final events]; [|done].
  destruct (negb (code =? 0)); cbn [out final events raise ret];
    by rewrite ?app_nil_r.
Qed.

(** A command or a call is one execution, however it ends. *)
Lemma leaf_execution (b : _SandboxBatch) (it : _SandboxBatchItem)
    (s : state W) :
  is_leaf it →
  ∃ e, executions (events (SandboxBatch.execute_item b it s)) = [e]
       ∧ executes b it e.
Proof.
  destruct it as [label command cwd env|label children|cb]; intros Hleaf;
    [| done |].
  - exists (EvRun command (flags b) cwd (deref s env)).
    cbn [SandboxBatch.execute_item]. rewrite execute_command_eq.
    cbn [events]. rewrite executions_app. by destruct (Py.truthy label).
  - exists (EvCall cb). cbn [SandboxBatch.execute_item].
    unfold SandboxBatch.execute_call. by rewrite bind_emit.
Qed.

(** A list of commands and calls that runs to its end has executed each of
    them once, in order. *)
Lemma leaves_executed (b : _SandboxBatch) (l : list _SandboxBatchItem)
    (s : state W) :
  Forall is_leaf l →
  out (SandboxBatch.execute_children b l s) = Return tt →
  Forall2 (executes b) l
    (executions (events (SandboxBatch.execute_children b l s))).
Proof.
  intros Hleaves. revert s.
  induction Hleaves as [|c l Hc _ IH]; intros s Hout; [constructor|].
  rewrite execute_children_cons in *. unfold bind in *.
  destruct (leaf_execution b c s Hc) as (e & He & Hexec).
  destruct (out (SandboxBatch.execute_item b c s)) as [[]|x];
    cbn [out events] in *; [|discriminate].
  rewrite executions_app, He. constructor; [done|]. by apply IH.
Qed.

(** C3.  The commands and calls of the tree are [pre], then a command, then
    [post], in depth first order; [pre] runs to its end without an error
    and the command then exits with a code that is not zero.  Then the
    batch raises the command failure whose message is built from the label
    of the command, or from its shell quoted argument vector when the label
    is missing or empty, and which carries the collect path of the batch;
    the state is the one the command left; and what was executed is [pre]
    and the command, each once and in order: nothing of [post]. *)
Theorem first_failure_aborts (b : _SandboxBatch) (s s2 : state W)
    (pre post : list _SandboxBatchItem) (label : option string)
    (command : list string) (cwd : string) (env : loc) (code : Z) :
  flatten (main_group b)
  = (pre ++ _SandboxBatchCommand label command cwd env :: post)%list →
  let r1 := SandboxBatch.execute_children b pre s in
  out r1 = Return tt →
  _run command (flags b) cwd env (final r1) = (Return code, s2) →
  code ≠ 0 →
  let r := SandboxBatch.execute b s in
  ∃ shown : string,
    out r = Raise (SandboxCommandError
                     ("Command '" ++ shown ++ "' failed with exitcode "
                      ++ Py.str_of_int code)
                     (collect b))
    ∧ contains ("Command '" ++ shown ++ "' failed with exitcode "
                ++ Py.str_of_int code) shown
    ∧ (∀ l, label = Some l → l ≠ "" → shown = l)
    ∧ (label = None ∨ label = Some "" →
       shown = Py.join_words (map Py.shlex_quote command))
    ∧ final r = s2
    ∧ executions (events r)
      = (executions (events r1)
         ++ [EvRun command (flags b) cwd (deref (final r1) env)])%list
    ∧ Forall2 (executes b)
        (pre ++ [_SandboxBatchCommand label command cwd env])
        (executions (events r)).
Proof.
  intros Hflat r1 Hpre Hrun Hcode r.
  exists (Py.or_default label (SandboxBatch.cmdline command)).
  destruct (execute_flatten b (main_group b) s) as (Hout & Hfinal & Hev).
  fold (SandboxBatch.execute b) in Hout, Hfinal, Hev. fold r in Hout, Hfinal, Hev.
  rewrite Hflat, execute_children_app in Hout, Hfinal, Hev.
  unfold bind in Hout, Hfinal, Hev. fold r1 in Hout, Hfinal, Hev.
  rewrite Hpre in Hout, Hfinal, Hev. cbn [out final events] in Hout, Hfinal, Hev.
  rewrite execute_children_cons in Hout, Hfinal, Hev.
  assert (Hcmd : SandboxBatch.execute_item b
                   (_SandboxBatchCommand label command cwd env) (final r1)
                 = Result
                     ((if Py.truthy label
                       then [EvStatus (default "" label)] else [])
                      ++ [EvRun command (flags b) cwd (deref (final r1) env)])
                     (Raise (SandboxCommandError
                        (SandboxBatch.failure_message
                           (Py.or_default label (SandboxBatch.cmdline command))
                           code) (collect b))) s2).
  { cbn [SandboxBatch.execute_item]. rewrite execute_command_eq, Hrun.
    cbn [fst snd]. by rewrite (proj2 (Z.eqb_neq code 0) Hcode). }
  rewrite (bind_Raise _ _ _ _ _ _ Hcmd) in Hout, Hfinal, Hev.
  cbn [out final events] in Hout, Hfinal, Hev.
  assert (Hexecuted : executions (events r)
            = (executions (events r1)
               ++ [EvRun command (flags b) cwd (deref (final r1) env)])%list).
  { rewrite Hev, !executions_app. by destruct (Py.truthy label). }
  split; [exact Hout|]. split.
  { by exists "Command '", ("' failed with exitcode " ++ Py.str_of_int code). }
  split.
  { intros l -> Hl. simpl. by rewrite bool_decide_eq_false_2. }
  split.
  { by intros [-> | ->]. }
  split; [exact Hfinal|]. split; [exact Hexecuted|].
  rewrite Hexecuted. apply Forall2_app.
  - apply leaves_executed; [|done].
    pose proof (flatten_leaves (main_group b)) as Hleaves.
    rewrite Hflat in Hleaves. by apply Forall_app in Hleaves as [? _].
  - by repeat constructor.
Qed.

End Engine.

Lemma first_failure_aborts_witness :
  ∃ shown : string,
    out (SandboxBatch.execute (Backend0 := Sim.sim_backend) three_commands
           (staged [] []))
    = Raise (SandboxCommandError
               ("Command '" ++ shown ++ "' failed with exitcode "
                ++ Py.str_of_int 1)
               (Some "/install"))
    ∧ shown = "configure"
    ∧ executions (events (SandboxBatch.execute (Backend0 := Sim.sim_backend)
                            three_commands (staged [] [])))
      = [EvRun ["true"] 0 "/" (<["PATH" := "/bin"]> ∅);
         EvRun ["false"] 0 "/" (<["PATH" := "/bin"]> ∅)].
Proof.
  destruct (first_failure_aborts (Backend0 := Sim.sim_backend)
              three_commands (staged [] []) (staged [] [])
              [_SandboxBatchCommand None ["true"] "/" 0%nat]
              [_SandboxBatchCommand None ["make"; "install"] "/" 0%nat]
              (Some "configure") ["false"] "/" 0%nat 1
              eq_refl eq_refl eq_refl)
    as (shown & Hout & _ & Hlabel & _ & _ & Hexecuted & _); [done|].
  exists shown. split; [exact Hout|]. split.
  - by apply Hlabel.
  - exact Hexecuted.
Defined.

(** ** Positions in the tree of a batch *)

Lemma item_at_app (p q : list nat) (g : _SandboxBatchItem) :
  item_at (p ++ q) g = item_at p g ≫= item_at q.
Proof.
  revert g. induction p as [|i p IH]; intros g; [done|].
  cbn [app item_at]. destruct (children_of g !! i) as [c|]; [apply IH|done].
Qed.

Lemma item_at_append_same (p : list nat) (x g : _SandboxBatchItem)
    (label : option string) (children : list _SandboxBatchItem) :
  item_at p g = Some (_SandboxBatchGroup label children) →
  item_at p (append_at p x g)
  = Some (_SandboxBatchGroup label (children ++ [x])).
Proof.
  revert g. induction p as [|i p IH]; intros g Hat.
  - injection Hat as ->. done.
  - cbn [item_at] in Hat.
    destruct g as [| lg cs |]; cbn [children_of] in Hat;
      [by rewrite lookup_nil in Hat| |by rewrite lookup_nil in Hat].
    destruct (cs !! i) as [c|] eqn:Hc; [|done].
    cbn [append_at item_at children_of].
    rewrite list_lookup_alter_eq, Hc. cbn. by apply IH.
Qed.

Lemma next_position_eq (p : list nat) (g : _SandboxBatchItem)
    (label : option string) (children : list _SandboxBatchItem) :
  item_at p g = Some (_SandboxBatchGroup label children) →
  next_position p g = (p ++ [length children])%list.
Proof. intros Hat. unfold next_position. by rewrite Hat. Qed.

(** Appending to a group that was itself just appended. *)
Lemma append_nested (p : list nat) (x g : _SandboxBatchItem)
    (lp l : option string) (cs cs0 : list _SandboxBatchItem) :
  item_at p g = Some (_SandboxBatchGroup lp cs) →
  append_at (p ++ [length cs]) x (append_at p (_SandboxBatchGroup l cs0) g)
  = append_at p (_SandboxBatchGroup l (cs0 ++ [x])) g.
Proof.
  revert g. induction p as [|i p IH]; intros g Hat.
  - injection Hat as ->. cbn [app append_at]. f_equal.
    rewrite <- (Nat.add_0_r (length cs)), alter_app_r. done.
  - cbn [item_at] in Hat.
    destruct g as [| lg cg |]; cbn [children_of] in Hat;
      [by rewrite lookup_nil in Hat| |by rewrite lookup_nil in Hat].
    destruct (cg !! i) as [c|] eqn:Hc; [|done].
    cbn [app append_at]. f_equal. rewrite list_alter_alter_eq.
    apply list_alter_ext; [|done].
    intros c' Hc'. rewrite Hc in Hc'. injection Hc' as <-.
    cbn. by apply IH.
Qed.

Lemma nested_appends (p : list nat) (g : _SandboxBatchItem)
    (lp l : option string) (cs cs0 items : list _SandboxBatchItem) :
  item_at p g = Some (_SandboxBatchGroup lp cs) →
  foldl (λ t it, append_at (p ++ [length cs]) it t)
        (append_at p (_SandboxBatchGroup l cs0) g) items
  = append_at p (_SandboxBatchGroup l (cs0 ++ items)) g.
Proof.
  intros Hat. revert cs0. induction items as [|x items IH]; intros cs0.
  - by rewrite app_nil_r.
  - cbn [foldl]. rewrite (append_nested p x g lp l cs cs0 Hat), IH.
    by rewrite <- app_assoc.
Qed.

Lemma extended_eq (b : _SandboxBatch) (l : list _SandboxBatchItem) :
  extended b l
  = set_main_group
      (foldl (λ t it, append_at (current_group b) it t) (main_group b) l) b.
Proof.
  unfold extended. revert b. induction l as [|x l IH]; intros b.
  - by destruct b.
  - cbn [foldl]. by rewrite IH.
Qed.

Lemma appended_open_ok (b : _SandboxBatch) (it : _SandboxBatchItem) :
  open_ok b → open_ok (appended b it).
Proof.
  intros (label & children & Hat). exists label, (children ++ [it])%list.
  by apply item_at_append_same.
Qed.

Lemma extended_open_ok (b : _SandboxBatch) (l : list _SandboxBatchItem) :
  open_ok b → open_ok (extended b l).
Proof.
  unfold extended. revert b. induction l as [|x l IH]; intros b Hok; [done|].
  cbn [foldl]. by apply IH, appended_open_ok.
Qed.

Lemma nested_open_ok (label : option string) (b : _SandboxBatch) :
  open_ok b → open_ok (nested label b).
Proof.
  intros (lp & cs & Hat). exists label, []. unfold nested.
  cbn [current_group main_group].
  rewrite (next_position_eq _ _ _ _ Hat), item_at_app.
  rewrite (item_at_append_same _ _ _ _ _ Hat). cbn.
  by rewrite lookup_app_r, Nat.sub_diag.
Qed.

(** Leaving a nested scope: its group, with all it was given, is one more
    child of the group that was current before. *)
Lemma nested_closed (label : option string) (b : _SandboxBatch)
    (items : list _SandboxBatchItem) :
  open_ok b →
  set_current_group (current_group b) (extended (nested label b) items)
  = appended b (_SandboxBatchGroup label items).
Proof.
  intros (lp & cs & Hat). rewrite extended_eq. unfold nested, appended.
  cbn [current_group main_group set_main_group set_current_group flags collect].
  rewrite (next_position_eq _ _ _ _ Hat).
  by rewrite (nested_appends _ _ lp label cs [] items Hat).
Qed.

(** ** What the base class hands to the primitive *)

Section BaseRun.
Context {W : Type} `{!Backend W}.

(** With no batch open [Sandbox.run] calls the primitive once, with an
    environment whose [PWD] is the working directory of the command, whatever
    the environment it started from said, and returns what the primitive
    returns. *)
Lemma sandbox_run_immediate (s : state W) (command : command_arg) (fl : Z)
    (cwd : option string) (env : option loc) (label : option string)
    (e : loc) :
  __batch (self s) = None → chosen_env (self s) env = Some e →
  let r := Sandbox.run command fl cwd env label s in
  let cwd' := work_directory (self s) cwd in
  ∃ environment,
    events r = [EvRun (as_list command) fl cwd' environment]
    ∧ environment !! "PWD" = Some cwd'
    ∧ (∀ k, k ≠ "PWD" → environment !! k = deref s e !! k)
    ∧ out r = match fst (_run (as_list command) fl cwd' (length (dicts s))
                           (with_environment s cwd e)) with
              | Return code => Return (Some code)
              | Raise x => Raise x
              end.
Proof.
  intros Hidle Hchosen r cwd'. subst r. rewrite run_eq, Hchosen, Hidle.
  eexists. split; [reflexivity|]. split; [apply lookup_insert_eq|].
  split; [|done]. intros k Hk. by apply lookup_insert_ne.
Qed.

(** With a batch open and the flags of the batch [Sandbox.run] returns no
    exit code, logs nothing, and the command, with the working directory and
    the new environment it settled on, is the last child of the current
    group. *)
Lemma sandbox_run_deferred (s : state W) (command : command_arg) (fl : Z)
    (cwd : option string) (env : option loc) (label : option string)
    (e : loc) (b : _SandboxBatch) (glabel : option string)
    (children : list _SandboxBatchItem) :
  __batch (self s) = Some b → fl = flags b →
  chosen_env (self s) env = Some e →
  item_at (current_group b) (main_group b)
  = Some (_SandboxBatchGroup glabel children) →
  let r := Sandbox.run command fl cwd env label s in
  let node := _SandboxBatchCommand label (as_list command)
                (work_directory (self s) cwd) (length (dicts s)) in
  out r = Return None ∧ events r = [] ∧ host (final r) = host s
  ∧ deref (final r) (length (dicts s)) !! "PWD"
    = Some (work_directory (self s) cwd)
  ∧ ∃ b', __batch (self (final r)) = Some b'
          ∧ flags b' = flags b ∧ collect b' = collect b
          ∧ current_group b' = current_group b
          ∧ item_at (current_group b') (main_group b')
            = Some (_SandboxBatchGroup glabel (children ++ [node])%list).
Proof.
  intros Hopen -> Hchosen Hat r node. subst r.
  rewrite run_eq, Hchosen, Hopen, Z.eqb_refl.
  cbn [out events final with_self host with_environment].
  split; [done|]. split; [done|]. split; [done|]. split.
  - unfold deref. cbn [dicts with_self with_environment].
    rewrite lookup_app_r, Nat.sub_diag by done. apply lookup_insert_eq.
  - eexists. split; [reflexivity|]. repeat split.
    cbn [set_main_group current_group main_group].
    by apply item_at_append_same.
Qed.

End BaseRun.

(** The bubblewrap backend has no primitive: a batch with a command in it
    cannot be executed on it. *)
Lemma bwrap_batch_not_implemented :
  out (SandboxBatch.execute (Backend0 := SandboxBwrap_backend Sim.world)
         three_commands (staged [] []))
  = Raise (ImplError
             "Sandbox of type 'SandboxBwrap' does not implement _run()").
Proof. vm_compute. reflexivity. Qed.

(** ** Scripts inside and around a batch *)

Lemma stmt_nested_ind (P : stmt → Prop) :
  (∀ command fl cwd env label, P (SRun command fl cwd env label)) →
  (∀ cb, P (SCallback cb)) →
  (∀ fl label coll body, Forall P body → P (SBatch fl label coll body)) →
  (∀ e, P (SRaise e)) →
  ∀ st, P st.
Proof.
  intros Hrun Hcallback Hbatch Hraise. fix IH 1.
  intros [command fl cwd env label|cb|fl label coll body|e].
  - apply Hrun.
  - apply Hcallback.
  - apply Hbatch. induction body as [|st body IHbody]; constructor.
    + apply IH.
    + exact IHbody.
  - apply Hraise.
Qed.

Section ScriptProperties.
Context {W : Type} `{!Backend W} `{!Callbacks W}.

Ltac settle_defers Hopen :=
  unfold defers;
  cbn [out events final ret raise app self host with_self with_environment
       set_batch __batch];
  repeat split; rewrite ?Hopen; eauto.

Lemma finally_restore {A} (m : M W A) (p : list nat) (s : state W)
    (b : _SandboxBatch) :
  __batch (self (final (m s))) = Some b →
  finally m (Sandbox.restore_group p) s
  = Result (events (m s)) (out (m s))
      (with_self (set_batch (Some (set_current_group p b))) (final (m s))).
Proof.
  intros Hopen. unfold finally, Sandbox.restore_group.
  rewrite bind_get, Hopen. cbn [modify out final events].
  by rewrite app_nil_r.
Qed.

Lemma exec_block_cons (st : stmt) (sts : list stmt) :
  exec_block (st :: sts) = (exec st ;;; exec_block sts).
Proof. reflexivity. Qed.

(** A block runs as its statements do. *)
Lemma block_defers (sts : list stmt) :
  Forall (λ st, ∀ s b, __batch (self s) = Some b → open_ok b →
                       defers [st] b s (exec st s)) sts →
  ∀ s b, __batch (self s) = Some b → open_ok b →
         defers sts b s (exec_block sts s).
Proof.
  induction 1 as [|st sts Hst _ IH]; intros s b Hopen Hok.
  - repeat split. exists []. by split; [constructor|].
  - rewrite exec_block_cons. unfold bind.
    destruct (Hst s b Hopen Hok) as (Hev & Hhost & Hout).
    destruct (out (exec st s)) as [[]|e].
    + destruct Hout as (l & Hmirror & Hbatch).
      apply Forall2_cons_inv_l in Hmirror as (it & l' & Hit & Hnil & ->).
      apply Forall2_nil_inv_l in Hnil as ->.
      destruct (IH (final (exec st s)) (extended b [it]) Hbatch
                  (extended_open_ok b [it] Hok)) as (Hev' & Hhost' & Hout').
      split; [by cbn [events]; rewrite Hev, Hev'|].
      split; [by cbn [final]; rewrite Hhost', Hhost|].
      cbn [out final].
      destruct (out (exec_block sts (final (exec st s)))) as [[]|e];
        [|done].
      destruct Hout' as (l & Hmirror & Hbatch').
      exists (it :: l). split; [by constructor|]. exact Hbatch'.
    + by repeat split.
Qed.

(** Inside a batch every statement defers. *)
Lemma exec_defers (st : stmt) (s : state W) (b : _SandboxBatch) :
  __batch (self s) = Some b → open_ok b → defers [st] b s (exec st s).
Proof.
  revert s b. induction st as [command fl cwd env label|cb|fl label coll body IH|e]
    using stmt_nested_ind; intros s b Hopen Hok.
  - cbn [exec]. unfold bind. rewrite run_eq, Hopen.
    destruct (chosen_env (self s) env) as [e|]; [|solve [settle_defers Hopen]].
    cbn zeta. destruct (fl =? flags b); [|solve [settle_defers Hopen]].
    settle_defers Hopen. eexists [_]. split; [repeat constructor|]. done.
  - cbn [exec]. rewrite callback_eq, Hopen.
    settle_defers Hopen. eexists [_]. split; [repeat constructor|]. done.
  - cbn [exec]. rewrite (batch_nested_eq _ _ _ _ _ _ Hopen).
    destruct (fl =? flags b); [|solve [settle_defers Hopen]].
    set (s1 := with_self (set_batch (Some (nested label b))) s).
    destruct (block_defers body IH s1 (nested label b) eq_refl
                (nested_open_ok label b Hok)) as (Hev & Hhost & Hout).
    fold (exec_block body) in *.
    destruct (out (exec_block body s1)) as [[]|e] eqn:Hbody.
    + destruct Hout as (l & Hmirror & Hbatch).
      rewrite (finally_restore _ _ _ _ Hbatch).
      unfold defers. cbn [out events final]. rewrite Hbody.
      split; [done|]. split; [done|].
      exists [_SandboxBatchGroup label l]. split.
      * repeat constructor. done.
      * cbn [with_self self set_batch __batch].
        change (extended b [_SandboxBatchGroup label l])
          with (appended b (_SandboxBatchGroup label l)).
        by rewrite <- (nested_closed label b l Hok).
    + destruct Hout as [b' Hbatch].
      rewrite (finally_restore _ _ _ _ Hbatch).
      unfold defers. cbn [out events final]. rewrite Hbody.
      split; [done|]. split; [done|]. by eexists.
  - cbn [exec]. unfold raise. solve [settle_defers Hopen].
Qed.

Lemma exec_block_defers (sts : list stmt) (s : state W)
    (b : _SandboxBatch) :
  __batch (self s) = Some b → open_ok b → defers sts b s (exec_block sts s).
Proof.
  apply block_defers. apply Forall_forall. intros st _ s' b'.
  apply exec_defers.
Qed.

End ScriptProperties.

Section Scopes.
Context {W : Type} `{!Backend W} `{!Callbacks W}.

Lemma extended_root (label : option string)
    (cs items : list _SandboxBatchItem) (fl : Z) (coll : option string) :
  extended (Batch (_SandboxBatchGroup label cs) [] fl coll) items
  = Batch (_SandboxBatchGroup label (cs ++ items)) [] fl coll.
Proof.
  unfold extended. revert cs. induction items as [|x items IH]; intros cs.
  - by rewrite app_nil_r.
  - cbn [foldl].
    change (appended (Batch (_SandboxBatchGroup label cs) [] fl coll) x)
      with (Batch (_SandboxBatchGroup label (cs ++ [x])) [] fl coll).
    by rewrite IH, <- app_assoc.
Qed.

(** C5.  In a sandbox with a batch open: a [batch] scope with the flags of
    the batch logs nothing and leaves the host alone, and when it is left
    without an error the one batch has one more child under the group that
    was current, a group with the label of the scope whose children mirror
    the statements of the scope, and the same group is current again; a
    [batch] scope with other flags raises the assertion error at once, with
    the state as it was; a [run] with other flags adds no command, it
    raises.  In a sandbox with no batch open: a [batch] scope whose body
    returns has logged nothing by then, and the scope as a whole is one
    execution of the one tree that mirrors the body, started from the state
    the body left with the batch closed. *)
Theorem nested_scopes_compose (s : state W) :
  (∀ b fl label coll body,
     __batch (self s) = Some b → open_ok b → fl = flags b →
     let r := exec (SBatch fl label coll body) s in
     events r = [] ∧ host (final r) = host s
     ∧ (out r = Return tt →
        ∃ items, Forall2 mirrors body items
                 ∧ __batch (self (final r))
                   = Some (appended b (_SandboxBatchGroup label items))))
  ∧ (∀ b fl label coll body,
       __batch (self s) = Some b → fl ≠ flags b →
       exec (SBatch fl label coll body) s
       = Result [] (Raise (AssertionError flags_message)) s)
  ∧ (∀ b command fl cwd env label,
       __batch (self s) = Some b → fl ≠ flags b →
       let r := Sandbox.run command fl cwd env label s in
       out r = match chosen_env (self s) env with
               | Some _ => Raise (AssertionError flags_message)
               | None => Raise TypeError
               end
       ∧ events r = [] ∧ __batch (self (final r)) = Some b
       ∧ host (final r) = host s)
  ∧ (∀ fl label coll body,
       __batch (self s) = None →
       let r1 := exec_block body (opened fl label coll s) in
       out r1 = Return tt →
       ∃ items,
         Forall2 mirrors body items ∧ events r1 = []
         ∧ exec (SBatch fl label coll body) s
           = SandboxBatch.execute
               (Batch (_SandboxBatchGroup label items) [] fl coll)
               (with_self (set_batch None) (final r1))).
Proof.
  split; [|split; [|split]].
  - intros b fl label coll body Hopen Hok -> r.
    destruct (exec_defers (SBatch (flags b) label coll body) s b Hopen Hok)
      as (Hev & Hhost & Hout). fold r in Hev, Hhost, Hout.
    split; [done|]. split; [done|]. intros Hreturn. rewrite Hreturn in Hout.
    destruct Hout as (l & Hmirror & Hbatch).
    apply Forall2_cons_inv_l in Hmirror as (it & l' & Hit & Hnil & ->).
    apply Forall2_nil_inv_l in Hnil as ->.
    inversion Hit as [| |? ? ? ? items Hitems]; subst.
    exists items. by split.
  - intros b fl label coll body Hopen Hne. cbn [exec].
    rewrite (batch_nested_eq _ _ _ _ _ _ Hopen).
    by rewrite (proj2 (Z.eqb_neq fl (flags b)) Hne).
  - intros b command fl cwd env label Hopen Hne r. subst r.
    rewrite run_eq, Hopen, (proj2 (Z.eqb_neq fl (flags b)) Hne).
    by destruct (chosen_env (self s) env).
  - intros fl label coll body Hidle r1 Hreturn.
    destruct (exec_block_defers body (opened fl label coll s)
                (Batch (_SandboxBatchGroup label []) [] fl coll) eq_refl)
      as (Hev & Hhost & Hout); [by eexists _, _|].
    fold r1 in Hev, Hhost, Hout. rewrite Hreturn in Hout.
    destruct Hout as (items & Hmirror & Hbatch).
    exists items. split; [done|]. split; [done|].
    cbn [exec]. fold (exec_block body).
    rewrite (batch_top_eq fl label coll (exec_block body) s Hidle).
    fold r1. rewrite Hreturn, Hbatch, Hev, extended_root.
    cbn [default app]. apply result_eta.
Qed.

(** C9.  With no batch open, a [batch] scope whose body raises: the scope
    raises the same error, nothing was logged, so none of the commands and
    calls given to the batch was executed, the host is as before, and no
    batch is open; a [run] that follows, with an environment, calls the
    primitive of the backend and returns what it returns. *)
Theorem failed_scope_discards (s : state W) (fl : Z)
    (label coll : option string) (body : list stmt) (e : exn) :
  __batch (self s) = None →
  out (exec_block body (opened fl label coll s)) = Raise e →
  let r := exec (SBatch fl label coll body) s in
  out r = Raise e ∧ events r = [] ∧ host (final r) = host s
  ∧ __batch (self (final r)) = None
  ∧ ∀ command fl' cwd env label' e',
      chosen_env (self (final r)) env = Some e' →
      let r' := Sandbox.run command fl' cwd env label' (final r) in
      let cwd' := work_directory (self (final r)) cwd in
      let primitive :=
        _run (as_list command) fl' cwd' (length (dicts (final r)))
          (with_environment (final r) cwd e') in
      events r'
      = [EvRun (as_list command) fl' cwd'
           (<["PWD" := cwd']> (deref (final r) e'))]
      ∧ out r' = match fst primitive with
                 | Return code => Return (Some code)
                 | Raise x => Raise x
                 end
      ∧ final r' = snd primitive.
Proof.
  intros Hidle Hraise r.
  destruct (exec_block_defers body (opened fl label coll s)
              (Batch (_SandboxBatchGroup label []) [] fl coll) eq_refl)
    as (Hev & Hhost & _); [by eexists _, _|].
  assert (Hr : r = Result [] (Raise e)
                 (with_self (set_batch None)
                    (final (exec_block body (opened fl label coll s))))).
  { subst r. cbn [exec]. fold (exec_block body).
    rewrite (batch_top_eq fl label coll (exec_block body) s Hidle).
    by rewrite Hraise, Hev. }
  rewrite Hr. cbn [out events final].
  split; [done|]. split; [done|]. split; [exact Hhost|]. split; [done|].
  intros command fl' cwd env label' e' Hchosen.
  by rewrite run_eq, Hchosen.
Qed.

End Scopes.

Lemma nested_scopes_compose_witness :
  let b := Batch (_SandboxBatchGroup None []) [] 0 None in
  (let r := exec (Backend0 := Sim.sim_backend)
              (SBatch 0 (Some "install") None [SCallback 7%nat]) batching in
   events r = [] ∧ host (final r) = host batching
   ∧ (out r = Return tt →
      ∃ items, Forall2 mirrors [SCallback 7%nat] items
               ∧ __batch (self (final r))
                 = Some (appended b
                           (_SandboxBatchGroup (Some "install") items))))
  ∧ exec (Backend0 := Sim.sim_backend)
      (SBatch 1 (Some "install") None [SCallback 7%nat]) batching
    = Result [] (Raise (AssertionError flags_message)) batching
  ∧ (let r := Sandbox.run (Backend0 := Sim.sim_backend) (Argv ["true"]) 1
                None None None batching in
     out r = Raise (AssertionError flags_message)
     ∧ events r = [] ∧ __batch (self (final r)) = Some b
     ∧ host (final r) = host batching)
  ∧ ∃ items,
      Forall2 mirrors two_scopes items
      ∧ events (exec_block (Backend0 := Sim.sim_backend) two_scopes
                  (opened 0 (Some "build") None (staged [] []))) = []
      ∧ exec (Backend0 := Sim.sim_backend)
          (SBatch 0 (Some "build") None two_scopes) (staged [] [])
        = SandboxBatch.execute (Backend0 := Sim.sim_backend)
            (Batch (_SandboxBatchGroup (Some "build") items) [] 0 None)
            (with_self (set_batch None)
               (final (exec_block (Backend0 := Sim.sim_backend) two_scopes
                         (opened 0 (Some "build") None (staged [] []))))).
Proof.
  intros b.
  assert (Hok : open_ok b) by (by exists None, []).
  assert (Hne : 1 ≠ flags b) by discriminate.
  split; [|split; [|split]].
  - exact (proj1 (nested_scopes_compose (Backend0 := Sim.sim_backend)
                    batching)
             b 0 (Some "install") None [SCallback 7%nat] eq_refl Hok eq_refl).
  - exact (proj1 (proj2 (nested_scopes_compose (Backend0 := Sim.sim_backend)
                           batching))
             b 1 (Some "install") None [SCallback 7%nat] eq_refl Hne).
  - exact (proj1 (proj2 (proj2 (nested_scopes_compose
                                  (Backend0 := Sim.sim_backend) batching)))
             b (Argv ["true"]) 1 None None None eq_refl Hne).
  - apply (proj2 (proj2 (proj2 (nested_scopes_compose
             (Backend0 := Sim.sim_backend) (staged [] []))))
             0 (Some "build") None two_scopes eq_refl).
    vm_compute. reflexivity.
Defined.

Lemma failed_scope_discards_witness :
  let r := exec (Backend0 := Sim.sim_backend)
             (SBatch 0 None None failing_scope) (staged [] []) in
  out r = Raise (UserError "stop") ∧ events r = []
  ∧ __batch (self (final r)) = None.
Proof.
  destruct (failed_scope_discards (Backend0 := Sim.sim_backend)
              (staged [] []) 0 None None failing_scope (UserError "stop")
              eq_refl)
    as (Hout & Hev & _ & Hbatch & _).
  - vm_compute. reflexivity.
  - repeat split; assumption.
Defined.

(* ===================================================================== *)
(** * Part III: further properties of the code *)
(* ===================================================================== *)

(** ** The work directory *)

Section WorkDirectory.
Context {W : Type}.

(** X1.  Setting the work directory and asking for it back: the answer is
    never the empty string; it is the directory asked for when that is not
    empty, otherwise the directory that was set when that is not empty,
    otherwise [/]; nothing is logged and only the work directory of the
    sandbox has changed. *)
Theorem work_directory_round_trip (s : state W) (d : string)
    (cwd : option string) :
  let r := (Sandbox.set_work_directory d ;;;
            Sandbox._get_work_directory cwd) s in
  let answer := if Py.truthy cwd then default "" cwd
                else if bool_decide (d = "") then "/" else d in
  out r = Return answer ∧ answer ≠ "" ∧ events r = []
  ∧ final r = with_self (set_cwd (Some d)) s.
Proof.
  intros r answer. subst r.
  unfold Sandbox.set_work_directory. rewrite bind_modify.
  rewrite get_work_directory_eq. cbn [out events final].
  change (__cwd (self (with_self (set_cwd (Some d)) s))) with (Some d).
  assert (Hanswer : Py.or_default (Py.or_else cwd (Some d)) "/" = answer).
  { subst answer. unfold Py.or_else.
    destruct cwd as [c|]; cbn [Py.truthy default Py.or_default].
    - case_bool_decide as Hc; cbn [negb Py.or_default]; [done|].
      by rewrite bool_decide_eq_false_2.
    - done. }
  rewrite Hanswer. repeat split.
  rewrite <- Hanswer. by apply or_default_nonempty.
Qed.

End WorkDirectory.

(** ** Flags *)

Lemma test_lor (x f g : Z) :
  0 ≤ f → 0 ≤ g →
  SandboxFlags.test (Z.lor x (2 ^ f)) (2 ^ g)
  = (f =? g) || SandboxFlags.test x (2 ^ g).
Proof.
  intros Hf Hg. rewrite !test_testbit by done.
  rewrite Z.lor_spec, Z.pow2_bits_eqb by done. apply orb_comm.
Qed.

(** The four flags of [SandboxFlags]. *)
Lemma flag_exponent (f : Z) :
  f ∈ [SandboxFlags.ROOT_READ_ONLY; SandboxFlags.NETWORK_ENABLED;
       SandboxFlags.INTERACTIVE; SandboxFlags.INHERIT_UID] →
  ∃ k, 0 ≤ k ∧ f = 2 ^ k.
Proof.
  intros Hf. rewrite !elem_of_cons, elem_of_nil in Hf.
  destruct Hf as [->|[->|[->|[->|[]]]]];
    [by exists 0|by exists 1|by exists 2|by exists 3].
Qed.

(** X2.  The four flags are four different bits: setting one of them in a
    flag word makes its own test true and changes the test of no other
    flag, and the empty word [NONE] has none of them set. *)
Theorem flags_independent (x f g : Z) :
  f ∈ [SandboxFlags.ROOT_READ_ONLY; SandboxFlags.NETWORK_ENABLED;
       SandboxFlags.INTERACTIVE; SandboxFlags.INHERIT_UID] →
  g ∈ [SandboxFlags.ROOT_READ_ONLY; SandboxFlags.NETWORK_ENABLED;
       SandboxFlags.INTERACTIVE; SandboxFlags.INHERIT_UID] →
  SandboxFlags.test (Z.lor x f) g
  = (if bool_decide (f = g) then true else SandboxFlags.test x g)
  ∧ SandboxFlags.test SandboxFlags.NONE g = false.
Proof.
  intros (i & Hi & ->)%flag_exponent (j & Hj & ->)%flag_exponent.
  split.
  - rewrite test_lor by done.
    destruct (Z.eqb_spec i j) as [->|Hne].
    + by rewrite bool_decide_eq_true_2.
    + rewrite bool_decide_eq_false_2; [done|].
      intros Heq. apply Hne. by apply (Z.pow_inj_r 2).
  - rewrite test_testbit by done. apply Z.bits_0.
Qed.

Lemma flags_independent_witness :
  SandboxFlags.test (Z.lor 1 SandboxFlags.INTERACTIVE)
    SandboxFlags.NETWORK_ENABLED
  = SandboxFlags.test 1 SandboxFlags.NETWORK_ENABLED
  ∧ SandboxFlags.test SandboxFlags.NONE SandboxFlags.NETWORK_ENABLED = false.
Proof.
  refine (flags_independent 1 SandboxFlags.INTERACTIVE
            SandboxFlags.NETWORK_ENABLED _ _).
  - by apply (bool_decide_unpack _).
  - by apply (bool_decide_unpack _).
Defined.

Section FlagsOfTheBackend.
Context {W : Type} `{!Host W}.

(** The run of the backend reads three bits of the flag word. *)
Lemma run_flags_ext (command : command_arg) (f f' : Z)
    (cwd : option string) (env : option loc) (s : state W) :
  Z.land f SandboxFlags.ROOT_READ_ONLY = Z.land f' SandboxFlags.ROOT_READ_ONLY →
  Z.land f SandboxFlags.NETWORK_ENABLED
  = Z.land f' SandboxFlags.NETWORK_ENABLED →
  Z.land f SandboxFlags.INTERACTIVE = Z.land f' SandboxFlags.INTERACTIVE →
  SandboxBwrap.run command f cwd env s = SandboxBwrap.run command f' cwd env s.
Proof.
  intros Hro Hnet Hint.
  unfold SandboxBwrap.run, SandboxBwrap.bwrap_command, SandboxFlags.test.
  by rewrite Hro, Hnet, Hint.
Qed.

(** X3.  The backend ignores [INHERIT_UID], and every bit of the flag word
    above the third: a run with [INHERIT_UID] added to the flags, and a run
    with only the three low bits of the flags, is the run with the flags
    themselves, in result, log and final state. *)
Theorem inherit_uid_ignored (command : command_arg) (flags : Z)
    (cwd : option string) (env : option loc) (s : state W) :
  SandboxBwrap.run command (Z.lor flags SandboxFlags.INHERIT_UID) cwd env s
  = SandboxBwrap.run command flags cwd env s
  ∧ SandboxBwrap.run command (Z.land flags 7) cwd env s
    = SandboxBwrap.run command flags cwd env s.
Proof.
  split; apply run_flags_ext;
    first [ by rewrite Z.land_lor_distr_l, Z.lor_0_r
          | by rewrite <- Z.land_assoc ].
Qed.

End FlagsOfTheBackend.

(** ** Marked directories and the launcher *)

Section MarkedDirectories.
Context {W : Type} `{!Host W}.

Lemma launchable_marked (s : state W) (env : option loc) (tool : string)
    (e0 : loc) (marks : list mark) :
  launchable s env tool e0 →
  launchable (with_self (set_directories marks) s) env tool e0.
Proof. by intros (? & ? & ? & ? & ?). Qed.

(** X4.  Marking a directory and then running a command: the launcher is
    given the vector it would have been given without the mark, with one
    more bind, of the new directory from its mount source; that bind stands
    behind the binds of all the directories marked before and in front of
    the read-only remount, the user namespace and the command.  Whether the
    directory holds artifacts makes no difference. *)
Theorem marked_directory_bound_last (s : state W) (d : string) (a : bool)
    (command : command_arg) (flags : Z) (cwd : option string)
    (env : option loc) (tool : string) (e0 : loc) :
  launchable s env tool e0 →
  let marks := __directories (self s) in
  let source :=
    mount_source
      (set_never_cache_vdirs true
         (set_directories (marks ++ [Mark d a]) (self s)))
      (Z.land flags SandboxFlags.ROOT_READ_ONLY) in
  let tail := ((if Z.testbit flags 0 then ["--remount-ro"; "/"] else [])
               ++ ["--unshare-user"; "--uid"; "0"; "--gid"; "0"]
               ++ as_list command)%list in
  ∃ (before : list string) (environment : gmap string string),
    launcher_vector tool source flags (bwrap_cwd (self s) cwd) marks
      (as_list command) = (before ++ tail)%list
    ∧ events ((Sandbox.mark_directory d a ;;;
               SandboxBwrap.run command flags cwd env) s)
      = [EvPopen (before ++ ["--bind"; source d; d] ++ tail)%list
           environment (Z.testbit flags 2) (negb (Z.testbit flags 2))].
Proof.
  intros Hfit marks source tail.
  unfold Sandbox.mark_directory. rewrite bind_modify.
  change (with_self _ s)
    with (with_self (set_directories (marks ++ [Mark d a])) s).
  rewrite (run_launches _ command flags cwd env tool e0
             (launchable_marked s env tool e0 _ Hfit)).
  cbn [events]. rewrite bwrap_command_eq, test_interactive.
  eexists _, _. split; last first.
  - f_equal. f_equal. unfold launcher_vector.
    change (__directories (set_never_cache_vdirs true
              (self (with_self (set_directories (marks ++ [Mark d a])) s))))
      with (marks ++ [Mark d a])%list.
    rewrite map_app, concat_app. cbn [map concat directory].
    rewrite app_nil_r. fold source. subst tail.
    rewrite !app_assoc. reflexivity.
  - unfold launcher_vector. subst tail. by rewrite !app_assoc.
Qed.

End MarkedDirectories.

Lemma marked_directory_bound_last_witness :
  ∃ (before : list string) (environment : gmap string string),
    launcher_vector "/usr/bin/bwrap"
      (λ path, Py.join "/sb/root" [Py.lstrip Py.sep path]) 1 "/"
      [Mark "/build" false] ["make"]
    = (before ++ ["--remount-ro"; "/"; "--unshare-user"; "--uid"; "0";
                  "--gid"; "0"; "make"])%list
    ∧ events ((Sandbox.mark_directory "/install" true ;;;
               SandboxBwrap.run (Argv ["make"]) 1 None None)
                (with_self (set_directories [Mark "/build" false])
                   (staged [] [])))
      = [EvPopen (before ++ ["--bind"; "/sb/root/install"; "/install"]
                  ++ ["--remount-ro"; "/"; "--unshare-user"; "--uid"; "0";
                      "--gid"; "0"; "make"])%list
           environment false true].
Proof.
  assert (Hfit : launchable
            (with_self (set_directories [Mark "/build" false]) (staged [] []))
            None "/usr/bin/bwrap" 0%nat).
  { repeat split; by eexists. }
  exact (marked_directory_bound_last
           (with_self (set_directories [Mark "/build" false]) (staged [] []))
           "/install" true (Argv ["make"]) 1 None None "/usr/bin/bwrap"
           0%nat Hfit).
Defined.

(** ** Runs that do not reach the launcher *)

Section Refusals.
Context {W : Type} `{!Host W}.



End Refusals.

(** ** What a run returns and what it leaves of the sandbox *)

Section RunResult.
Context {W : Type} `{!Host W}.

Lemma cleanup_keeps_object (interactive : bool) (existing : string → bool)
    (root_mount_source : string) (s : state W) :
  self (final (SandboxBwrap.cleanup interactive existing root_mount_source s))
  = self s
  ∧ dicts (final (SandboxBwrap.cleanup interactive existing
                    root_mount_source s)) = dicts s.
Proof.
  unfold SandboxBwrap.cleanup, bind, lift_host, ret.
  destruct interactive; cbn [negb out events final self dicts]; [done|].
  by destruct (fst (SandboxBwrap.remove_devices root_mount_source
                      SandboxBwrap.DEVICES (host s))).
Qed.


(** X7.  A run of the backend that reached the launcher leaves the sandbox
    object as it was but for one field: it has recorded that the real
    directory was handed out.  The marked directories, the work directory,
    the environment and the open batch are untouched, however the run
    ends; and the dictionaries that were there are still there, in front of
    at most one new one. *)
Theorem run_keeps_sandbox (s : state W) (command : command_arg)
    (flags : Z) (cwd : option string) (env : option loc) (tool : string)
    (e0 : loc) :
  launchable s env tool e0 →
  let r := SandboxBwrap.run command flags cwd env s in
  self (final r) = set_never_cache_vdirs true (self s)
  ∧ ∃ new, dicts (final r) = (dicts s ++ new)%list ∧ (length new ≤ 1)%nat.
Proof.
  intros Hfit r. subst r.
  rewrite (run_launches s command flags cwd env tool e0 Hfit).
  cbn [final with_host self dicts].
  destruct (cleanup_keeps_object
              (SandboxFlags.test flags SandboxFlags.INTERACTIVE)
              (λ d, os_path_exists
                      (Py.join (_root (set_never_cache_vdirs true (self s)))
                         [d]) (host s))
              (mount_source (set_never_cache_vdirs true (self s))
                 (Z.land flags SandboxFlags.ROOT_READ_ONLY) "/")
              (State (set_never_cache_vdirs true (self s))
                 (bwrap_env s env e0).2
                 (snd (popen
                    (SandboxBwrap.bwrap_command tool
                       (mount_source (set_never_cache_vdirs true (self s))
                          (Z.land flags SandboxFlags.ROOT_READ_ONLY) "/")
                       flags (bwrap_cwd (set_never_cache_vdirs true (self s)) cwd)
                       (mount_source (set_never_cache_vdirs true (self s))
                          (Z.land flags SandboxFlags.ROOT_READ_ONLY))
                       (__directories (set_never_cache_vdirs true (self s)))
                       (as_list command))
                    (deref (State (set_never_cache_vdirs true (self s))
                              (bwrap_env s env e0).2 (host s))
                       (bwrap_env s env e0).1)
                    (SandboxFlags.test flags SandboxFlags.INTERACTIVE)
                    (negb (SandboxFlags.test flags SandboxFlags.INTERACTIVE))
                    (os_makedirs
                       (Py.join
                          (mount_source (set_never_cache_vdirs true (self s))
                             (Z.land flags SandboxFlags.ROOT_READ_ONLY) "/")
                          [Py.lstrip Py.sep
                             (bwrap_cwd (set_never_cache_vdirs true (self s))
                                cwd)])
                       (mounted_enter (host s)))))))
    as [Hself Hdicts].
  cbn [self dicts] in Hself, Hdicts.
  split; [exact Hself|]. rewrite Hdicts.
  destruct env as [e|]; cbn [bwrap_env snd].
  - exists []. split; [by rewrite app_nil_r | cbn [length]; lia].
  - eexists [_]. split; [reflexivity | cbn [length]; lia].
Qed.

End RunResult.


Lemma run_keeps_sandbox_witness :
  self (final (SandboxBwrap.run (Argv ["true"]) 0 None None (staged [] [])))
  = set_never_cache_vdirs true (self (staged [] []))
  ∧ ∃ new,
      dicts (final (SandboxBwrap.run (Argv ["true"]) 0 None None
                      (staged [] [])))
      = (dicts (staged [] []) ++ new)%list
      ∧ (length new ≤ 1)%nat.
Proof.
  assert (Hfit : launchable (staged [] []) None "/usr/bin/bwrap" 0%nat).
  { repeat split; by eexists. }
  exact (run_keeps_sandbox (staged [] []) (Argv ["true"]) 0 None None
           "/usr/bin/bwrap" 0%nat Hfit).
Defined.

(** ** Counting the attempts on the devices *)

Section Attempts.
Context {W : Type} `{!Host W}.

Lemma tally_unlink (path : string) (t : tally W) :
  os_unlink (Host := tally_host) path t
  = (fst (os_unlink path (inner t)),
     Tally (snd (os_unlink path (inner t))) (S (unlink_calls t))
       (sleep_calls t)).
Proof. reflexivity. Qed.

Lemma tally_rmdir (path : string) (t : tally W) :
  os_rmdir (Host := tally_host) path t
  = (fst (os_rmdir path (inner t)),
     Tally (snd (os_rmdir path (inner t))) (unlink_calls t) (sleep_calls t)).
Proof. reflexivity. Qed.

Lemma try_remove_from_counts (remaining : nat) (path : string)
    (t : tally W) :
  let r := SandboxBwrap.try_remove_from (Host0 := tally_host)
             remaining path t in
  ∃ retries : nat,
    (retries ≤ remaining)%nat
    ∧ sleep_calls (snd r) = (sleep_calls t + retries)%nat
    ∧ unlink_calls (snd r) = (unlink_calls t + retries + 1)%nat
    ∧ (fst r = Raise (OSError EBUSY) → retries = remaining)
    ∧ fst r ≠ Raise (OSError ENOENT)
    ∧ (fst r, inner (snd r))
      = SandboxBwrap.try_remove_from remaining path (inner t).
Proof.
  revert t. induction remaining as [|n IH]; intros t;
    cbn [SandboxBwrap.try_remove_from]; rewrite tally_unlink;
    destruct (os_unlink path (inner t)) as [[e|] w'];
    cbn [fst snd].
  - exists 0%nat. case_bool_decide as Hbusy; [|case_bool_decide as Hmissing];
      cbn [fst snd inner unlink_calls sleep_calls];
      repeat split; try lia; try done; intros [=]; congruence.
  - exists 0%nat. cbn [fst snd inner unlink_calls sleep_calls].
    repeat split; try lia; done.
  - case_bool_decide as Hbusy; [|case_bool_decide as Hmissing].
    + destruct (IH (Tally (time_sleep (1 # 100) w') (S (unlink_calls t))
                      (S (sleep_calls t))))
        as (k & Hk & Hsleep & Hunlink & Hraised & Hmissing & Hinner).
      exists (S k).
      change (time_sleep (Host := tally_host) (1 # 100)
                (Tally w' (S (unlink_calls t)) (sleep_calls t)))
        with (Tally (time_sleep (1 # 100) w') (S (unlink_calls t))
                (S (sleep_calls t))).
      cbn [inner unlink_calls sleep_calls] in *.
      repeat split; try lia; try done.
      intros Hr. specialize (Hraised Hr). lia.
    + exists 0%nat. cbn [fst snd inner unlink_calls sleep_calls].
      repeat split; try lia; done.
    + exists 0%nat. cbn [fst snd inner unlink_calls sleep_calls].
      repeat split; try lia; try done; intros [=]; congruence.
  - exists 0%nat. cbn [fst snd inner unlink_calls sleep_calls].
    repeat split; try lia; done.
Qed.

(** X8.  However the host answers, [try_remove_device] comes to an end
    after at most 1001 calls of [unlink]: it sleeps exactly once between two
    calls, so one time less than it calls [unlink], and at most 1000 times;
    a busy error is only let through when all 1000 sleeps were spent; a
    missing device is never an error.  Counting the calls does not change
    what happens on the host. *)
Theorem try_remove_device_bounded (path : string) (w : W) :
  let r := SandboxBwrap.try_remove_device (Host0 := tally_host) path
             (Tally w 0 0) in
  unlink_calls (snd r) = S (sleep_calls (snd r))
  ∧ (sleep_calls (snd r) ≤ 1000)%nat
  ∧ (fst r = Raise (OSError EBUSY) → sleep_calls (snd r) = 1000%nat)
  ∧ fst r ≠ Raise (OSError ENOENT)
  ∧ (fst r, inner (snd r)) = SandboxBwrap.try_remove_device path w.
Proof.
  intros r. subst r. unfold SandboxBwrap.try_remove_device.
  destruct (try_remove_from_counts SandboxBwrap.max_tries path (Tally w 0 0))
    as (k & Hk & Hsleep & Hunlink & Hraised & Hmissing & Hinner).
  cbn [inner unlink_calls sleep_calls] in *.
  unfold SandboxBwrap.max_tries in *.
  repeat split; [lia|lia| |done|done].
  intros Hr. specialize (Hraised Hr). lia.
Qed.

Lemma remove_devices_counts (source : string) (devices : list string)
    (t : tally W) :
  let r := SandboxBwrap.remove_devices (Host0 := tally_host) source devices
             t in
  (unlink_calls t + Nat.min 1 (length devices) ≤ unlink_calls (snd r))%nat
  ∧ (unlink_calls (snd r) ≤ unlink_calls t + 1001 * length devices)%nat
  ∧ (sleep_calls t ≤ sleep_calls (snd r))%nat
  ∧ (sleep_calls (snd r) ≤ sleep_calls t + 1000 * length devices)%nat.
Proof.
  revert t. induction devices as [|device rest IH]; intros t;
    cbn [SandboxBwrap.remove_devices]; [cbn; lia|].
  unfold SandboxBwrap.try_remove_device.
  destruct (try_remove_from_counts SandboxBwrap.max_tries
              (Py.join source [Py.lstrip "/" device]) t)
    as (k & Hk & Hsleep & Hunlink & _).
  unfold SandboxBwrap.max_tries in *.
  destruct (SandboxBwrap.try_remove_from 1000 _ t) as [[[]|e] t'];
    cbn [fst snd length] in *.
  - destruct (IH t') as (H1 & H2 & H3 & H4).
    destruct rest; cbn [length Nat.min] in *; lia.
  - destruct rest; cbn [length Nat.min]; lia.
Qed.

Lemma remove_basedirs_counts (existing : string → bool) (source : string)
    (l : list string) (t : tally W) :
  let r := SandboxBwrap.remove_basedirs (Host0 := tally_host) existing
             source l t in
  unlink_calls (snd r) = unlink_calls t
  ∧ sleep_calls (snd r) = sleep_calls t.
Proof.
  revert t. induction l as [|basedir rest IH]; intros t;
    cbn [SandboxBwrap.remove_basedirs]; [done|].
  destruct (negb (existing basedir)); [apply IH|].
  rewrite tally_rmdir.
  destruct (os_rmdir (Py.join source [basedir]) (inner t)) as [[e|] w'];
    cbn [fst snd].
  - destruct (bool_decide (e = ENOENT)); [|done].
    destruct (IH (Tally w' (unlink_calls t) (sleep_calls t))) as [H1 H2].
    done.
  - destruct (IH (Tally w' (unlink_calls t) (sleep_calls t))) as [H1 H2].
    done.
Qed.

Lemma cleanup_counts (interactive : bool) (existing : string → bool)
    (source : string) (s : state (tally W)) :
  let c := SandboxBwrap.cleanup (Host0 := tally_host) interactive existing
             source s in
  if interactive then
    unlink_calls (host (final c)) = unlink_calls (host s)
    ∧ sleep_calls (host (final c)) = sleep_calls (host s)
  else
    (unlink_calls (host s) < unlink_calls (host (final c)))%nat
    ∧ (unlink_calls (host (final c)) ≤ unlink_calls (host s) + 1001 * length SandboxBwrap.DEVICES)%nat
    ∧ (sleep_calls (host s) ≤ sleep_calls (host (final c)))%nat
    ∧ (sleep_calls (host (final c)) ≤ sleep_calls (host s) + 1000 * length SandboxBwrap.DEVICES)%nat.
Proof.
  unfold SandboxBwrap.cleanup, bind, lift_host, ret.
  destruct interactive; cbn [negb out events final host].
  - apply remove_basedirs_counts.
  - pose proof (remove_devices_counts source SandboxBwrap.DEVICES (host s))
      as (H1 & H2 & H3 & H4).
    change (Nat.min 1 (length SandboxBwrap.DEVICES)) with 1%nat in H1.
    destruct (fst (SandboxBwrap.remove_devices source
                     SandboxBwrap.DEVICES (host s)));
      cbn [out final host].
    + destruct (remove_basedirs_counts existing source
                  SandboxBwrap.basedirs
                  (snd (SandboxBwrap.remove_devices (Host0 := tally_host)
                          source SandboxBwrap.DEVICES (host s))))
        as [-> ->].
      lia.
    + lia.
Qed.

(** X9.  A run that reached the launcher removes the device nodes unless
    it was interactive.  An interactive run never calls [unlink] and never
    sleeps; any other run calls [unlink] at least once and at most 1001
    times for each of the five devices, and sleeps at most 1000 times for
    each of them, however the host answers. *)
Theorem devices_removed_unless_interactive (s : state (tally W))
    (command : command_arg) (flags : Z) (cwd : option string)
    (env : option loc) (tool : string) (e0 : loc) :
  launchable (Host0 := tally_host) s env tool e0 →
  let r := SandboxBwrap.run (Host0 := tally_host) command flags cwd env s in
  if Z.testbit flags 2 then
    unlink_calls (host (final r)) = unlink_calls (host s)
    ∧ sleep_calls (host (final r)) = sleep_calls (host s)
  else
    (unlink_calls (host s) < unlink_calls (host (final r)))%nat
    ∧ (unlink_calls (host (final r)) ≤ unlink_calls (host s) + 1001 * length SandboxBwrap.DEVICES)%nat
    ∧ (sleep_calls (host s) ≤ sleep_calls (host (final r)))%nat
    ∧ (sleep_calls (host (final r)) ≤ sleep_calls (host s) + 1000 * length SandboxBwrap.DEVICES)%nat.
Proof.
  intros Hfit r. subst r.
  rewrite (run_launches (Host0 := tally_host) s command flags cwd env tool
             e0 Hfit).
  cbn [final with_host host].
  rewrite <- test_interactive.
  match goal with
  | |- context [SandboxBwrap.cleanup ?i ?ex ?src ?st] =>
      pose proof (cleanup_counts i ex src st) as Hcounts
  end.
  cbn [host] in Hcounts.
  destruct (SandboxFlags.test flags SandboxFlags.INTERACTIVE);
    exact Hcounts.
Qed.

End Attempts.

Lemma devices_removed_unless_interactive_witness :
  (unlink_calls (host (counted (staged [] [])))
   < unlink_calls (host (final (SandboxBwrap.run (Host0 := tally_host)
                                  (Argv ["true"]) 0 None None
                                  (counted (staged [] []))))))%nat
  ∧ (unlink_calls (host (final (SandboxBwrap.run (Host0 := tally_host)
                                  (Argv ["true"]) 0 None None
                                  (counted (staged [] [])))))
     ≤ unlink_calls (host (counted (staged [] []))) + 1001 * length SandboxBwrap.DEVICES)%nat
  ∧ (sleep_calls (host (counted (staged [] [])))
     ≤ sleep_calls (host (final (SandboxBwrap.run (Host0 := tally_host)
                                   (Argv ["true"]) 0 None None
                                   (counted (staged [] []))))))%nat
  ∧ (sleep_calls (host (final (SandboxBwrap.run (Host0 := tally_host)
                                 (Argv ["true"]) 0 None None
                                 (counted (staged [] [])))))
     ≤ sleep_calls (host (counted (staged [] []))) + 1000 * length SandboxBwrap.DEVICES)%nat.
Proof.
  assert (Hfit : launchable (Host0 := tally_host) (counted (staged [] []))
                   None "/usr/bin/bwrap" 0%nat).
  { repeat split; by eexists. }
  exact (devices_removed_unless_interactive (counted (staged [] []))
           (Argv ["true"]) 0 None None "/usr/bin/bwrap" 0%nat Hfit).
Defined.

(** ** Scopes, from the outside *)

Section ScopesFromOutside.
Context {W : Type} `{!Backend W} `{!Callbacks W}.

Lemma closed_again (s s' : state W) (b : option _SandboxBatch) :
  __batch (self s) = None →
  self s' = set_batch b (self s) →
  set_batch None (self s') = self s.
Proof.
  intros Hidle ->. destruct (self s). cbn in *. by subst.
Qed.

Lemma execute_one_command (b : _SandboxBatch) (glabel label : option string)
    (command : list string) (cwd : string) (env : loc) (s : state W) :
  same (SandboxBatch.execute_item b
          (_SandboxBatchGroup glabel
             [_SandboxBatchCommand label command cwd env]) s)
       (SandboxBatch.execute_command b label command cwd env s).
Proof.
  destruct (execute_flatten b
              (_SandboxBatchGroup glabel
                 [_SandboxBatchCommand label command cwd env]) s)
    as (Hout & Hfinal & Hev).
  cbn [flatten flat_map app] in *.
  rewrite execute_children_cons in *.
  change (SandboxBatch.execute_children b []) with (@ret W _ tt) in *.
  rewrite then_ret_tt in *. by repeat split.
Qed.

(** X10.  A scope around one command is that command run at once: with no
    batch open, [with sandbox.batch(flags): sandbox.run(command, flags)]
    hands the primitive the same command, flags, directory and environment
    as [sandbox.run(command, flags)] alone, from the same state, and leaves
    the state the primitive left.  Only the way the exit code comes back
    differs: the scope returns nothing for an exit code of zero and raises
    the command failure, with the collect path of the scope, for any
    other. *)
Theorem batch_of_one_command (s : state W) (command : command_arg) (fl : Z)
    (cwd : option string) (env : option loc)
    (label glabel coll : option string) (e : loc) :
  __batch (self s) = None → chosen_env (self s) env = Some e →
  let immediate := Sandbox.run command fl cwd env label s in
  let batched :=
    Sandbox.batch fl glabel coll
      (Sandbox.run command fl cwd env label ;;; ret tt) s in
  executions (events batched) = events immediate
  ∧ final batched = final immediate
  ∧ out batched
    = match out immediate with
      | Return (Some code) =>
          if code =? 0 then Return tt
          else Raise (SandboxCommandError
                        (SandboxBatch.failure_message
                           (Py.or_default label
                              (SandboxBatch.cmdline (as_list command)))
                           code)
                        coll)
      | Return None => Return tt
      | Raise x => Raise x
      end.
Proof.
  intros Hidle Hchosen immediate batched. subst immediate batched.
  rewrite (batch_top_eq fl glabel coll _ s Hidle).
  assert (Hbody : (Sandbox.run command fl cwd env label ;;; ret tt)
                    (opened fl glabel coll s)
                  = Result [] (Return tt)
                      (with_self (set_batch (Some
                         (Batch (_SandboxBatchGroup glabel
                                   [_SandboxBatchCommand label
                                      (as_list command)
                                      (work_directory (self s) cwd)
                                      (length (dicts s))])
                                [] fl coll)))
                         (with_environment s cwd e))).
  { unfold bind. rewrite run_eq.
    change (chosen_env (self (opened fl glabel coll s)) env)
      with (chosen_env (self s) env).
    rewrite Hchosen.
    cbn [opened with_self self set_batch __batch flags].
    rewrite Z.eqb_refl. cbn [out events final ret app].
    reflexivity. }
  rewrite Hbody. cbn [out events final self with_self set_batch __batch
                      default from_option id app].
  set (b := Batch _ [] fl coll).
  set (closed := with_self (set_batch None) _).
  assert (Hclosed : closed = with_environment s cwd e).
  { subst closed. unfold with_self, with_environment.
    cbn [self dicts host]. f_equal.
    destruct (self s); cbn in *; by subst. }
  destruct (execute_one_command b glabel label (as_list command)
              (work_directory (self s) cwd) (length (dicts s)) closed)
    as (Hout & Hfinal & Hev).
  unfold SandboxBatch.execute. cbn [main_group b].
  change (main_group b) with
    (_SandboxBatchGroup glabel
       [_SandboxBatchCommand label (as_list command)
          (work_directory (self s) cwd) (length (dicts s))]).
  rewrite Hout, Hfinal, Hev, execute_command_eq, Hclosed.
  rewrite run_eq, Hchosen, Hidle.
  cbn [out events final flags collect b].
  assert (Hd : deref (with_environment s cwd e) (length (dicts s))
               = <["PWD" := work_directory (self s) cwd]> (deref s e)).
  { unfold deref, with_environment. cbn [dicts].
    by rewrite lookup_app_r, Nat.sub_diag. }
  rewrite Hd, executions_app.
  split; [by destruct (Py.truthy label)|]. split; [done|].
  destruct (fst (_run _ _ _ _ _)) as [code|x]; [|done].
  by destruct (code =? 0).
Qed.

(** The leaves of a script and of the tree that mirrors it go together. *)
Lemma mirrors_leaves (b : _SandboxBatch) (st : stmt)
    (it : _SandboxBatchItem) :
  mirrors st it →
  Forall2 (λ leaf node, ∀ e, executes b node e → performs (flags b) leaf e)
    (script_leaves st) (flatten it).
Proof.
  revert it.
  induction st as [command fl cwd env label|cb|fl label coll body IH|x]
    using stmt_nested_ind; intros it Hmirror; inversion Hmirror; subst.
  - cbn [script_leaves flatten]. constructor; [|constructor].
    intros [| | | | |]; cbn; try done. by intros (-> & -> & _).
  - cbn [script_leaves flatten]. constructor; [|constructor].
    by intros [| | | | |].
  - cbn [script_leaves flatten].
    match goal with H : Forall2 mirrors body _ |- _ => rename H into Hall end.
    clear Hmirror. induction Hall as [|st it body items Hst _ IHall];
      [constructor|].
    apply Forall_cons in IH as [IHst IHbody].
    cbn [flat_map]. apply Forall2_app; [by apply IHst|by apply IHall].
Qed.

(** X11.  What is written inside an outermost scope is what is executed
    when the scope is left, in the order it was written: if a scope opened
    with no batch open returns, the commands and deferred actions that were
    executed are those of its body, each once, in program order, nested
    scopes opened up, every command with the flags of the scope. *)
Theorem scope_executes_in_order (s : state W) (fl : Z)
    (label coll : option string) (body : list stmt) :
  __batch (self s) = None →
  let r := exec (SBatch fl label coll body) s in
  out r = Return tt →
  Forall2 (performs fl) (flat_map script_leaves body)
    (executions (events r)).
Proof.
  intros Hidle r. subst r. cbn [exec]. fold (exec_block body).
  rewrite (batch_top_eq fl label coll _ s Hidle).
  set (b0 := Batch (_SandboxBatchGroup label []) [] fl coll).
  destruct (exec_block_defers body (opened fl label coll s) b0 eq_refl)
    as (Hev & _ & Hbody); [by exists label, []|].
  destruct (out (exec_block body (opened fl label coll s))) as [[]|x];
    cbn [out events]; [|discriminate].
  destruct Hbody as (items & Hmirror & Hbatch).
  rewrite Hbatch, Hev. subst b0. rewrite extended_root.
  cbn [default from_option id app].
  set (b := Batch (_SandboxBatchGroup label items) [] fl coll).
  set (closed := with_self (set_batch None) _).
  intros Hout.
  destruct (execute_flatten b (main_group b) closed) as (Ho & _ & He).
  unfold SandboxBatch.execute in *. rewrite He. rewrite Ho in Hout.
  pose proof (leaves_executed b (flatten (main_group b)) closed
                (flatten_leaves _) Hout) as Hexecuted.
  assert (Hleaves : Forall2
            (λ leaf node, ∀ e, executes b node e → performs fl leaf e)
            (flat_map script_leaves body) (flatten (main_group b))).
  { cbn [main_group b flatten]. clear -Hmirror.
    induction Hmirror as [|st it body items Hst _ IHall]; [constructor|].
    cbn [flat_map]. apply Forall2_app; [|exact IHall].
    exact (mirrors_leaves b st it Hst). }
  eapply Forall2_trans; [|exact Hleaves|exact Hexecuted]. auto.
Qed.

Lemma statement_keeps_group (st : stmt) :
  ∀ (s : state W) (b : _SandboxBatch),
    __batch (self s) = Some b →
    ∃ b', __batch (self (final (exec st s))) = Some b'
          ∧ current_group b' = current_group b
          ∧ flags b' = flags b ∧ collect b' = collect b.
Proof.
  induction st as [command fl cwd env label|cb|fl label coll body IH|x]
    using stmt_nested_ind; intros s b Hopen.
  - cbn [exec]. unfold bind. rewrite run_eq, Hopen.
    destruct (chosen_env (self s) env) as [e|];
      [|by exists b]. cbn zeta.
    destruct (fl =? flags b); cbn [out final ret];
      [|by exists b].
    eexists. split; [reflexivity|]. done.
  - cbn [exec]. rewrite callback_eq, Hopen. cbn [final].
    eexists. split; [reflexivity|]. done.
  - cbn [exec]. rewrite (batch_nested_eq _ _ _ _ _ _ Hopen).
    destruct (fl =? flags b); [|by exists b].
    set (s1 := with_self (set_batch (Some (nested label b))) s).
    assert (Hblock : ∀ (s' : state W) (b1 : _SandboxBatch),
              __batch (self s') = Some b1 →
              ∃ b', __batch (self (final (for_each exec body s'))) = Some b'
                    ∧ current_group b' = current_group b1
                    ∧ flags b' = flags b1 ∧ collect b' = collect b1).
    { clear -IH. induction IH as [|st body Hst _ IHbody]; intros s' b1 Hb1.
      - by exists b1.
      - change (for_each exec (st :: body))
          with (exec st ;;; for_each exec body).
        unfold bind.
        destruct (Hst s' b1 Hb1) as (b2 & Hb2 & Hc2 & Hf2 & Hl2).
        destruct (out (exec st s')); cbn [final].
        + destruct (IHbody _ b2 Hb2) as (b3 & Hb3 & Hc3 & Hf3 & Hl3).
          exists b3. repeat split; congruence.
        + by exists b2. }
    destruct (Hblock s1 (nested label b) eq_refl)
      as (b' & Hb' & _ & Hf' & Hl').
    rewrite (finally_restore _ _ _ _ Hb'). cbn [final with_self self
                                                  set_batch __batch].
    eexists. split; [reflexivity|]. by repeat split.
  - cbn [exec]. by exists b.
Qed.

(** X12.  Whatever is done inside an open batch, and however it ends, the
    batch stays open on the group that was current: statements, nested
    scopes among them, change neither the current group nor the flags nor
    the collect path of the batch, also when one of them raises in the
    middle of a nested scope. *)
Theorem statements_keep_group (sts : list stmt) (s : state W)
    (b : _SandboxBatch) :
  __batch (self s) = Some b →
  ∃ b', __batch (self (final (exec_block sts s))) = Some b'
        ∧ current_group b' = current_group b
        ∧ flags b' = flags b ∧ collect b' = collect b.
Proof.
  revert s b. induction sts as [|st sts IH]; intros s b Hopen.
  - by exists b.
  - rewrite exec_block_cons. unfold bind.
    destruct (statement_keeps_group st s b Hopen)
      as (b1 & Hb1 & Hc1 & Hf1 & Hl1).
    destruct (out (exec st s)); cbn [final].
    + destruct (IH _ b1 Hb1) as (b2 & Hb2 & Hc2 & Hf2 & Hl2).
      exists b2. repeat split; congruence.
    + by exists b1.
Qed.

(** X13.  A deferred command runs where it was asked to run, not where the
    sandbox stands when the batch is executed: inside an outermost scope, a
    command deferred before [set_work_directory] and [set_environment] were
    called is handed to the primitive with the work directory and a copy of
    the environment of the moment it was deferred, in a sandbox that
    already has the new work directory and the new environment. *)
Theorem deferred_command_is_a_snapshot (s : state W) (command : command_arg)
    (fl : Z) (label coll : option string) (d : string) (e e' : loc) :
  __batch (self s) = None → __env (self s) = Some e →
  let before := work_directory (self s) None in
  let r := Sandbox.batch fl label coll
             (Sandbox.run command fl None None None ;;;
              Sandbox.set_work_directory d ;;;
              Sandbox.set_environment e') s in
  ∃ at_exit : state W,
    __cwd (self at_exit) = Some d ∧ __env (self at_exit) = Some e'
    ∧ __batch (self at_exit) = None
    ∧ deref at_exit (length (dicts s)) = <["PWD" := before]> (deref s e)
    ∧ executions (events r)
      = [EvRun (as_list command) fl before
           (<["PWD" := before]> (deref s e))]
    ∧ final r = snd (_run (as_list command) fl before (length (dicts s))
                       at_exit)
    ∧ ∀ code, fst (_run (as_list command) fl before (length (dicts s))
                     at_exit) = Return code →
              out r = if code =? 0 then Return tt
                      else Raise (SandboxCommandError
                                    (SandboxBatch.failure_message
                                       (SandboxBatch.cmdline
                                          (as_list command)) code)
                                    coll).
Proof.
  intros Hidle Henv before r. subst r.
  rewrite (batch_top_eq fl label coll _ s Hidle).
  set (node := _SandboxBatchCommand None (as_list command) before
                 (length (dicts s))).
  set (s2 := State
               (set_env (Some e') (set_cwd (Some d) (set_batch (Some
                  (Batch (_SandboxBatchGroup label [node]) [] fl coll))
                  (self s))))
               (dicts s ++ [<["PWD" := before]> (deref s e)])
               (host s)).
  assert (Hbody : (Sandbox.run command fl None None None ;;;
                   Sandbox.set_work_directory d ;;;
                   Sandbox.set_environment e') (opened fl label coll s)
                  = Result [] (Return tt) s2).
  { unfold bind at 1. rewrite run_eq.
    change (chosen_env (self (opened fl label coll s)) None)
      with (__env (self s)).
    rewrite Henv.
    cbn [opened with_self self set_batch __batch flags].
    rewrite Z.eqb_refl. cbn [out events final app].
    unfold Sandbox.set_work_directory, Sandbox.set_environment.
    rewrite bind_modify. reflexivity. }
  rewrite Hbody. cbn [out events final app].
  set (closed := with_self (set_batch None) s2).
  assert (Hbatch : default (Batch (_SandboxBatchGroup label []) [] fl coll)
                     (__batch (self s2))
                   = Batch (_SandboxBatchGroup label [node]) [] fl coll)
    by reflexivity.
  rewrite Hbatch.
  set (b := Batch (_SandboxBatchGroup label [node]) [] fl coll).
  destruct (execute_one_command b label None (as_list command) before
              (length (dicts s)) closed) as (Hout & Hfinal & Hev).
  assert (Hd : deref closed (length (dicts s))
               = <["PWD" := before]> (deref s e)).
  { unfold deref. subst closed s2. cbn [with_self dicts].
    by rewrite lookup_app_r, Nat.sub_diag. }
  exists closed. split; [done|]. split; [done|]. split; [done|].
  split; [exact Hd|].
  unfold SandboxBatch.execute.
  change (main_group b)
    with (_SandboxBatchGroup label
            [_SandboxBatchCommand None (as_list command) before
               (length (dicts s))]).
  rewrite Hout, Hfinal, Hev, execute_command_eq, Hd.
  cbn [out events final flags collect b Py.truthy app].
  split; [done|]. split; [done|].
  intros code ->. cbn [Py.or_default]. by destruct (code =? 0).
Qed.

End ScopesFromOutside.

Lemma batch_of_one_command_witness :
  let immediate :=
    Sandbox.run (Backend0 := Sim.sim_backend) (Argv ["false"]) 0 None None
      None (staged [] []) in
  let batched :=
    Sandbox.batch (Backend0 := Sim.sim_backend) 0 None (Some "/install")
      (Sandbox.run (Backend0 := Sim.sim_backend) (Argv ["false"]) 0 None
         None None ;;; ret tt) (staged [] []) in
  executions (events batched) = events immediate
  ∧ final batched = final immediate
  ∧ out batched
    = match out immediate with
      | Return (Some code) =>
          if code =? 0 then Return tt
          else Raise (SandboxCommandError
                        (SandboxBatch.failure_message
                           (Py.or_default None
                              (SandboxBatch.cmdline (as_list (Argv ["false"]))))
                           code)
                        (Some "/install"))
      | Return None => Return tt
      | Raise x => Raise x
      end.
Proof.
  exact (batch_of_one_command (Backend0 := Sim.sim_backend) (staged [] [])
           (Argv ["false"]) 0 None None None None (Some "/install") 0%nat
           eq_refl eq_refl).
Defined.

Lemma scope_executes_in_order_witness :
  Forall2 (performs 0) (flat_map script_leaves two_scopes)
    (executions (events (exec (Backend0 := Sim.sim_backend)
                           (SBatch 0 (Some "build") None two_scopes)
                           (staged [] [])))).
Proof.
  assert (Hout : out (exec (Backend0 := Sim.sim_backend)
                        (SBatch 0 (Some "build") None two_scopes)
                        (staged [] [])) = Return tt)
    by (vm_compute; reflexivity).
  exact (scope_executes_in_order (Backend0 := Sim.sim_backend)
           (staged [] []) 0 (Some "build") None two_scopes eq_refl Hout).
Defined.

Lemma statements_keep_group_witness :
  ∃ b', __batch (self (final (exec_block (Backend0 := Sim.sim_backend)
                                [SBatch 0 (Some "install") None
                                   failing_scope] batching)))
        = Some b'
        ∧ current_group b' = []
        ∧ flags b' = 0 ∧ collect b' = None.
Proof.
  exact (statements_keep_group (Backend0 := Sim.sim_backend)
           [SBatch 0 (Some "install") None failing_scope] batching
           (Batch (_SandboxBatchGroup None []) [] 0 None) eq_refl).
Defined.

Lemma deferred_command_is_a_snapshot_witness :
  let r := Sandbox.batch (Backend0 := Sim.sim_backend) 0 None None
             (Sandbox.run (Backend0 := Sim.sim_backend) (Argv ["true"]) 0
                None None None ;;;
              Sandbox.set_work_directory "/build" ;;;
              Sandbox.set_environment 0%nat) (staged [] []) in
  ∃ at_exit : state Sim.world,
    __cwd (self at_exit) = Some "/build"
    ∧ executions (events r)
      = [EvRun ["true"] 0 "/" (<["PWD" := "/"]> (<["PATH" := "/bin"]> ∅))].
Proof.
  destruct (deferred_command_is_a_snapshot (Backend0 := Sim.sim_backend)
              (staged [] []) (Argv ["true"]) 0 None None "/build" 0%nat
              0%nat eq_refl eq_refl)
    as (at_exit & Hcwd & _ & _ & _ & Hexecuted & _).
  exists at_exit. split; [exact Hcwd|exact Hexecuted].
Defined.

(** ** The probe without a search path *)

Lemma split_nonempty (c : ascii) (s : string) : Py.split c s ≠ [].
Proof.
  destruct s as [|a s]; [done|]. cbn [Py.split].
  case_bool_decide; [done|]. by destruct (Py.split c s).
Qed.

(** Splitting at a separator splits what is before it and what is behind
    it. *)
Lemma split_app (c : ascii) (a b : string) :
  Py.split c (a ++ String c b) = (Py.split c a ++ Py.split c b)%list.
Proof.
  induction a as [|x a IH].
  - rewrite string_app_nil. cbn [Py.split].
    by rewrite bool_decide_eq_true_2.
  - rewrite string_app_cons. cbn [Py.split]. rewrite IH.
    case_bool_decide; [done|].
    pose proof (split_nonempty c a) as Hne.
    by destruct (Py.split c a).
Qed.

Section ProbeEdges.
Context {W : Type} `{!Host W}.

(** X14.  The probe for a relative command needs a search path: without an
    environment, or with an environment that has no [PATH], it raises
    [AttributeError] and changes nothing.  The entries of [PATH] are probed
    one by one: what is found under [a:b] is what is found under [a] or
    under [b].  An empty [PATH] is one empty entry: the command is then
    looked for right under the root. *)
Theorem has_command_search_path (s : state W) (command : string) :
  Py.isabs command = false →
  let probe := λ path,
    os_path_exists
      (Py.join (_root (self s)) [Py.lstrip Py.sep path; command]) (host s) in
  Sandbox._has_command command None s = Result [] (Raise AttributeError) s
  ∧ (∀ e, deref s e !! "PATH" = None →
       Sandbox._has_command command (Some e) s
       = Result [] (Raise AttributeError) s)
  ∧ (∀ e a b, deref s e !! "PATH" = Some (a ++ ":" ++ b) →
       Sandbox._has_command command (Some e) s
       = Result []
           (Return (existsb probe (Py.split ":" a)
                    || existsb probe (Py.split ":" b))) s)
  ∧ (plain_root (_root (self s)) → ∀ e, deref s e !! "PATH" = Some "" →
       Sandbox._has_command command (Some e) s
       = Result []
           (Return (os_path_exists (_root (self s) ++ "/" ++ command)
                      (host s))) s).
Proof.
  intros Hrel probe. repeat split.
  - unfold Sandbox._has_command. by rewrite bind_get, Hrel.
  - intros e Hpath. unfold Sandbox._has_command.
    by rewrite bind_get, Hrel, Hpath.
  - intros e a b Hpath.
    rewrite (has_command_relative s command e _ Hrel Hpath).
    change ("/" ++ b) with (String "/" b).
    change (":" ++ b) with (String ":" b).
    by rewrite split_app, existsb_app.
  - intros [Hne Hend] e Hpath.
    rewrite (has_command_relative s command e _ Hrel Hpath).
    cbn [Py.split existsb Py.lstrip]. rewrite orb_false_r.
    do 2 f_equal. unfold Py.join. cbn [fold_left].
    unfold Py.join2 at 2. cbn [Py.startswith].
    rewrite Hend, bool_decide_eq_false_2 by done. cbn [orb].
    unfold Py.join2. unfold Py.isabs in Hrel. rewrite Hrel.
    rewrite endswith_app by done.
    change (Py.endswith Py.sep ("/" ++ "")) with true.
    rewrite orb_true_r. by rewrite string_app_assoc.
Qed.

End ProbeEdges.

Lemma has_command_search_path_witness :
  Sandbox._has_command "sh" None (staged [] [])
  = Result [] (Raise AttributeError) (staged [] []).
Proof.
  exact (proj1 (has_command_search_path (staged [] []) "sh" eq_refl)).
Defined.

(** ** A new sandbox *)

Section NewSandbox.
Context {W : Type} `{!Host W}.

(** X15.  What the first run on a new sandbox comes to.  Right after the
    constructor no environment is set, so a run that passes none never
    reaches the launcher: it is refused with the error for a sandbox that
    may not hand out its real directory, else with the assertion for a bare
    sandbox, else with the [TypeError] of the missing environment; it logs
    nothing and the host is as the constructor left it, with the
    directories it made.  Once an environment is set, a sandbox that is not
    bare and may hand out its directory launches on a host that has the
    launcher: in [/], with nothing marked, and with a copy of that
    environment in which [PWD] is [/]. *)
Theorem new_sandbox_first_run (directory : string) (allow bare : bool)
    (w : W) (command : command_arg) (flags : Z) (cwd : option string) :
  let s := fresh_state directory allow bare w in
  (let r := SandboxBwrap.run command flags cwd None s in
   events r = []
   ∧ out r = Raise
       (if negb allow then BstError "You can't use get_directory"
        else if bare then
          AssertionError "Scratch is not going to work with bare directories"
        else TypeError)
   ∧ host (final r)
     = if bare then os_makedirs directory w
       else os_makedirs (Py.join directory ["scratch"])
              (os_makedirs (Py.join directory ["root"]) w))
  ∧ ∀ (store : list (gmap string string)) (e : loc) (tool : string),
      allow = true → bare = false →
      get_host_tool "bwrap" (host s) = Some tool →
      let sb := set_never_cache_vdirs true (set_env (Some e) (self s)) in
      let source :=
        mount_source sb (Z.land flags SandboxFlags.ROOT_READ_ONLY) in
      let interactive := Z.testbit flags 2 in
      events ((Sandbox.set_environment e ;;;
               SandboxBwrap.run command flags None None)
                (State (self s) store (host s)))
      = [EvPopen
           (launcher_vector tool source flags "/" [] (as_list command))
           (<["PWD" := "/"]> (default ∅ (store !! e)))
           interactive (negb interactive)].
Proof.
  intros s. split.
  - subst s. unfold fresh_state, SandboxNew.__init__.
    destruct allow, bare; cbn [fst snd negb];
      match goal with
      | |- context [SandboxBwrap.run _ _ _ _ ?st] => set (s0 := st)
      end;
      unfold SandboxBwrap.run.
    + rewrite (bind_pure _ _ _ _ _ (get_directory_ok s0 eq_refl)).
      erewrite bind_Raise; last first.
      { unfold Sandbox._get_scratch_directory. rewrite bind_get.
        unfold assert. subst s0.
        cbn [self with_self set_never_cache_vdirs __bare_directory negb].
        rewrite bind_raise. reflexivity. }
      done.
    + rewrite (bind_pure _ _ _ _ _ (get_directory_ok s0 eq_refl)).
      rewrite (bind_pure _ _ _ _ _
                 (get_scratch_directory_ok
                    (with_self (set_never_cache_vdirs true) s0) eq_refl)).
      subst s0.
      cbn [self with_self set_never_cache_vdirs __scratch].
      rewrite bind_ret.
      destruct cwd as [c|].
      * rewrite bind_ret.
        erewrite bind_Raise; last first.
        { rewrite get_environment_eq. reflexivity. }
        done.
      * rewrite (bind_pure _ _ _ _ _ (get_work_directory_eq None _)).
        erewrite bind_Raise; last first.
        { rewrite get_environment_eq. reflexivity. }
        done.
    + unfold Sandbox.get_directory. rewrite bind_assoc, bind_get.
      subst s0. cbn [self __allow_real_directory]. by rewrite bind_raise.
    + unfold Sandbox.get_directory. rewrite bind_assoc, bind_get.
      subst s0. cbn [self __allow_real_directory]. by rewrite bind_raise.
  - intros store e tool -> -> Htool sb source interactive.
    unfold Sandbox.set_environment. rewrite bind_modify.
    set (s1 := with_self (set_env (Some e)) (State (self s) store (host s))).
    assert (Hfit : launchable s1 None tool e).
    { subst s1 s. unfold fresh_state, SandboxNew.__init__.
      cbn [fst snd]. repeat split; [by eexists|exact Htool]. }
    rewrite (run_launches s1 command flags None None tool e Hfit).
    cbn [events]. subst s1.
    cbn [with_self self dicts host bwrap_env fst snd bwrap_cwd].
    fold sb. fold source.
    assert (Hcwd : Py.or_default (__cwd sb) "/" = "/") by reflexivity.
    assert (Hmarks : __directories sb = []) by reflexivity.
    rewrite Hcwd, Hmarks, bwrap_command_eq, test_interactive.
    do 2 f_equal.
    unfold deref. cbn [dicts].
    rewrite lookup_app_r, Nat.sub_diag by done. cbn [lookup list_lookup].
    reflexivity.
Qed.

End NewSandbox.

Lemma new_sandbox_first_run_witness :
  events ((Sandbox.set_environment 0%nat ;;;
           SandboxBwrap.run (Argv ["true"]) 0 None None)
            (State (self (fresh_state "/sb" true false Sim.world0))
               [<["PATH" := "/bin"]> ∅]
               (host (fresh_state "/sb" true false Sim.world0))))
  = [EvPopen
       (launcher_vector "/usr/bin/bwrap"
          (mount_source
             (set_never_cache_vdirs true
                (set_env (Some 0%nat)
                   (self (fresh_state "/sb" true false Sim.world0)))) 0)
          0 "/" [] ["true"])
       (<["PWD" := "/"]> (<["PATH" := "/bin"]> ∅))
       false true].
Proof.
  exact (proj2 (new_sandbox_first_run "/sb" true false Sim.world0
                  (Argv ["true"]) 0 None)
           [<["PATH" := "/bin"]> ∅] 0%nat "/usr/bin/bwrap"
           eq_refl eq_refl eq_refl).
Defined.

(** ** The handlers around the launcher *)

Section Handlers.
Import Supervision.


End Handlers.


Lemma try_remove_device_bounded_witness :
  sleep_calls (snd (SandboxBwrap.try_remove_device (Host0 := tally_host)
                      "/sb/root/dev/null" (Tally (held_world None) 0 0)))
  = 1000%nat.
Proof.
  assert (Hbusy : fst (SandboxBwrap.try_remove_device (Host0 := tally_host)
                         "/sb/root/dev/null" (Tally (held_world None) 0 0))
                  = Raise (OSError EBUSY))
    by (vm_compute; reflexivity).
  exact (proj1 (proj2 (proj2 (try_remove_device_bounded "/sb/root/dev/null"
                                (held_world None)))) Hbusy).
Defined.

(** ** The mount scope *)

Section MountScope.
Context {W : Type} `{!Host W}.

Lemma try_remove_from_scope (remaining : nat) (path : string)
    (t : scoped W) :
  let r := SandboxBwrap.try_remove_from (Host0 := scoped_host) remaining
             path t in
  entered (snd r) = entered t ∧ exited (snd r) = exited t.
Proof.
  revert t. induction remaining as [|n IH]; intros t;
    cbn [SandboxBwrap.try_remove_from];
    change (os_unlink (Host := scoped_host) path t)
      with (fst (os_unlink path (under t)),
            Scoped (snd (os_unlink path (under t))) (entered t) (exited t));
    destruct (os_unlink path (under t)) as [[e|] w']; cbn [fst snd];
    try done.
  - by repeat case_bool_decide.
  - case_bool_decide; [|by case_bool_decide].
    apply (IH (Scoped (time_sleep (1 # 100) w') (entered t) (exited t))).
Qed.

Lemma remove_devices_scope (source : string) (devices : list string)
    (t : scoped W) :
  let r := SandboxBwrap.remove_devices (Host0 := scoped_host) source
             devices t in
  entered (snd r) = entered t ∧ exited (snd r) = exited t.
Proof.
  revert t. induction devices as [|device rest IH]; intros t;
    cbn [SandboxBwrap.remove_devices]; [done|].
  unfold SandboxBwrap.try_remove_device.
  destruct (try_remove_from_scope SandboxBwrap.max_tries
              (Py.join source [Py.lstrip "/" device]) t) as [He Hx].
  destruct (SandboxBwrap.try_remove_from _ _ t) as [[[]|e] t'];
    cbn [fst snd] in *; [|done].
  destruct (IH t') as [He' Hx']. split; congruence.
Qed.

Lemma remove_basedirs_scope (existing : string → bool) (source : string)
    (l : list string) (t : scoped W) :
  let r := SandboxBwrap.remove_basedirs (Host0 := scoped_host) existing
             source l t in
  entered (snd r) = entered t ∧ exited (snd r) = exited t.
Proof.
  revert t. induction l as [|basedir rest IH]; intros t;
    cbn [SandboxBwrap.remove_basedirs]; [done|].
  destruct (negb (existing basedir)); [apply IH|].
  change (os_rmdir (Host := scoped_host) (Py.join source [basedir]) t)
    with (fst (os_rmdir (Py.join source [basedir]) (under t)),
          Scoped (snd (os_rmdir (Py.join source [basedir]) (under t)))
            (entered t) (exited t)).
  destruct (os_rmdir (Py.join source [basedir]) (under t)) as [[e|] w'];
    cbn [fst snd].
  - case_bool_decide; [|done].
    apply (IH (Scoped w' (entered t) (exited t))).
  - apply (IH (Scoped w' (entered t) (exited t))).
Qed.

Lemma cleanup_scope (interactive : bool) (existing : string → bool)
    (source : string) (s : state (scoped W)) :
  let c := SandboxBwrap.cleanup (Host0 := scoped_host) interactive existing
             source s in
  entered (host (final c)) = entered (host s)
  ∧ exited (host (final c)) = exited (host s).
Proof.
  unfold SandboxBwrap.cleanup, bind, lift_host, ret.
  destruct interactive; cbn [negb out events final host].
  - apply remove_basedirs_scope.
  - destruct (remove_devices_scope source SandboxBwrap.DEVICES (host s))
      as [He Hx].
    destruct (fst (SandboxBwrap.remove_devices source SandboxBwrap.DEVICES
                     (host s))); cbn [out final host]; [|done].
    destruct (remove_basedirs_scope existing source SandboxBwrap.basedirs
                (snd (SandboxBwrap.remove_devices (Host0 := scoped_host)
                        source SandboxBwrap.DEVICES (host s))))
      as [He' Hx'].
    split; congruence.
Qed.

(** X17.  A run that reaches the launcher enters the mount scope once and
    leaves it once, however it ends: also when the removal of a device or
    of a directory raises after the launcher has exited, the scope is left
    before the error gets out. *)
Theorem mount_scope_balanced (s : state (scoped W)) (command : command_arg)
    (flags : Z) (cwd : option string) (env : option loc) (tool : string)
    (e0 : loc) :
  launchable (Host0 := scoped_host) s env tool e0 →
  let r := SandboxBwrap.run (Host0 := scoped_host) command flags cwd env s in
  entered (host (final r)) = S (entered (host s))
  ∧ exited (host (final r)) = S (exited (host s)).
Proof.
  intros Hfit r. subst r.
  rewrite (run_launches (Host0 := scoped_host) s command flags cwd env tool
             e0 Hfit).
  cbn [final with_host host].
  match goal with
  | |- context [SandboxBwrap.cleanup ?i ?ex ?src ?st] =>
      destruct (cleanup_scope i ex src st) as [He Hx]
  end.
  cbn [host] in He, Hx.
  change (mounted_exit (Host := scoped_host)) with
    (λ t : scoped W,
       Scoped (mounted_exit (under t)) (entered t) (S (exited t))).
  cbn [entered exited]. by rewrite He, Hx.
Qed.

End MountScope.

Lemma mount_scope_balanced_witness :
  entered (host (final (SandboxBwrap.run (Host0 := scoped_host)
                          (Argv ["true"]) 0 None None
                          (State (self (staged [] [])) (dicts (staged [] []))
                             (Scoped (held_world None) 0 0)))))
  = 1%nat
  ∧ exited (host (final (SandboxBwrap.run (Host0 := scoped_host)
                           (Argv ["true"]) 0 None None
                           (State (self (staged [] []))
                              (dicts (staged [] []))
                              (Scoped (held_world None) 0 0)))))
    = 1%nat.
Proof.
  assert (Hfit : launchable (Host0 := scoped_host)
                   (State (self (staged [] [])) (dicts (staged [] []))
                      (Scoped (held_world None) 0 0))
                   None "/usr/bin/bwrap" 0%nat).
  { repeat split; by eexists. }
  exact (mount_scope_balanced
           (State (self (staged [] [])) (dicts (staged [] []))
              (Scoped (held_world None) 0 0))
           (Argv ["true"]) 0 None None "/usr/bin/bwrap" 0%nat Hfit).
Defined.
